(** * Backup Server dashboard and backup daemon: a shallow embedding

    The dashboard page [src/pages/BackupServer.tsx] is the control surface
    of the backup daemon.  Its interfaces become records, its string
    helpers become functions on [string], its asynchronous handlers become
    programs of a small state-and-exception monad whose only outside
    world is the command backend reached through [invoke], and the JSX it
    returns becomes a value of a [View] type.

    The daemon core itself ([src-tauri/src/services/backup_daemon.rs]) is
    known through the specification only; the part of it that is needed
    is modelled from the specification in module [Daemon]. *)

From Stdlib Require Import ZArith QArith String Ascii List Lia Sorted.
From stdpp Require Import base option list strings gmap fin_maps.

Local Open Scope string_scope.
Local Open Scope Z_scope.

(** ** JavaScript strings

    A JavaScript string is a sequence of UTF-16 code units; [length] and
    [slice] count code units.  A [string] models it with one character
    per code unit. *)

Module Js.

Fixpoint take (n : nat) (s : string) : string :=
  match n, s with
  | S n', String c s' => String c (take n' s')
  | _, _ => EmptyString
  end.

Fixpoint drop (n : nat) (s : string) : string :=
  match n, s with
  | S n', String _ s' => drop n' s'
  | _, _ => s
  end.

(** [length] as a JavaScript number. *)
Definition length (s : string) : Z := Z.of_nat (String.length s).

(** Relative index resolution of [String.prototype.slice]: a negative
    index counts from the end, and the result is clamped to [0, len]. *)
Definition clamp (len i : Z) : Z :=
  if i <? 0 then Z.max (len + i) 0 else Z.min i len.

(** [s.slice(start)] when [finish] is [None], [s.slice(start, finish)]
    otherwise. *)
Definition slice (s : string) (start : Z) (finish : option Z) : string :=
  let len := length s in
  let from := clamp len start in
  let to := match finish with
            | None => len
            | Some e => clamp len e
            end in
  if to <=? from then EmptyString
  else take (Z.to_nat (to - from)) (drop (Z.to_nat from) s).

(** Truthiness of a [string | null] value: [null] and the empty string
    are falsy. *)
Definition truthy (s : option string) : bool :=
  match s with
  | Some (String _ _) => true
  | _ => false
  end.

End Js.

(** ** The page's string helpers *)

(** [shortenCid], lines 185-188. *)
Definition shortenCid (cid : string) : string :=
  if Js.length cid <=? 16 then cid
  else Js.slice cid 0 (Some 8) ++ "..." ++ Js.slice cid (-8) None.

(** [shortenPeerId], lines 190-193. *)
Definition shortenPeerId (peerId : string) : string :=
  if Js.length peerId <=? 20 then peerId
  else Js.slice peerId 0 (Some 12) ++ "...".

(** ** Data model: the interfaces of lines 5-59

    A [number] that counts files, bytes, retries or a sequence is an
    integer; a timestamp is the string the backend serialised.  A
    [Record<string, T>] is a finite map with string keys. *)

Module ProcessedManifest.
Record t := mk {
  manifestCid : string;
  sourcePeerId : string;
  sequenceNumber : Z;
  folderId : string;
  processedAt : string;
  fileCount : Z;
  totalSizeBytes : Z;
  deletedCount : Z
}.
End ProcessedManifest.

Module InProgressManifest.
Record t := mk {
  manifestCid : string;
  sourcePeerId : string;
  sequenceNumber : Z;
  startedAt : string;
  totalFiles : Z;
  filesDownloaded : Z;
  filesFailed : Z;
  currentStatus : string
}.
End InProgressManifest.

Module FailedManifest.
Record t := mk {
  manifestCid : string;
  sourcePeerId : string;
  failedAt : string;
  errorMessage : string;
  retryCount : Z
}.
End FailedManifest.

Module DaemonStats.
Record t := mk {
  totalManifestsProcessed : Z;
  totalFilesDownloaded : Z;
  totalBytesDownloaded : Z;
  totalFilesDeleted : Z;
  lastActivityAt : option string
}.
End DaemonStats.

Module DaemonState.
Record t := mk {
  processedManifests : gmap string ProcessedManifest.t;
  inProgressManifests : gmap string InProgressManifest.t;
  failedManifests : list FailedManifest.t;
  lastPollTime : string;
  stats : DaemonStats.t
}.
End DaemonState.

Module BackupServerConfig.
Record t := mk {
  enabled : bool;
  poll_interval_secs : Z;
  max_concurrent_downloads : Z;
  max_retries : Z;
  auto_delete_tombstones : bool
}.
End BackupServerConfig.

Module AppConfig.
Record t := mk {
  backup_server : BackupServerConfig.t
}.
End AppConfig.

(** [Object.values] of a [Record<string, T>]. *)
Definition Object_values {T} (o : gmap string T) : list T :=
  (map_to_list o).*2.

(** ** The command backend

    [invoke<T>(cmd, args)] sends a named command to the backend and
    resolves to a [T] or rejects with a thrown value.  The commands the
    page sends are the constructors of [Command], indexed by the type
    the page expects back. *)

Inductive Command : Type -> Type :=
| get_backup_daemon_state : Command DaemonState.t
| get_config : Command AppConfig.t
| enable_backup_daemon : Command unit
| disable_backup_daemon : Command unit
| pause_backup_daemon : Command unit
| resume_backup_daemon : Command unit
| retry_failed_manifest (manifestCid : string) : Command unit.

(** What travels to the backend: the command name and its argument
    object. *)
Record Call := mkCall {
  cmd : string;
  args : list (string * string)
}.

Definition call_of {T} (c : Command T) : Call :=
  match c with
  | get_backup_daemon_state => mkCall "get_backup_daemon_state" []
  | get_config => mkCall "get_config" []
  | enable_backup_daemon => mkCall "enable_backup_daemon" []
  | disable_backup_daemon => mkCall "disable_backup_daemon" []
  | pause_backup_daemon => mkCall "pause_backup_daemon" []
  | resume_backup_daemon => mkCall "resume_backup_daemon" []
  | retry_failed_manifest manifestCid =>
      mkCall "retry_failed_manifest" [("manifestCid", manifestCid)]
  end.

(** A value caught by [catch (e)]: a string ([typeof e === 'string']), an
    [Error] with its message ([e instanceof Error]), or anything else. *)
Inductive Thrown :=
| ThrownString (s : string)
| ThrownError (message : string)
| ThrownOther.

(** The conversion every [catch] block of the page applies:
    [typeof e === 'string' ? e : (e instanceof Error ? e.message : fallback)]. *)
Definition display_message (e : Thrown) (fallback : string) : string :=
  match e with
  | ThrownString s => s
  | ThrownError message => message
  | ThrownOther => fallback
  end.

(** ** Component state: the five [useState] cells of lines 62-66 *)

Record PageState := mkPage {
  daemonState : option DaemonState.t;
  config : option AppConfig.t;
  loading : bool;
  error : option string;
  actionInProgress : option string
}.

Definition initial_page : PageState :=
  mkPage None None true None None.

(** ** The page's effects

    A handler runs against a world made of the component state, the
    backend (any state machine answering commands), the log of calls
    sent through [invoke] and the console.  A computation returns a
    value or a thrown value, and the world it leaves behind.  An [await]
    is sequencing: the model follows one handler from start to end. *)

Section Page.

Variable B : Type.
Variable respond : forall T, Command T -> B -> (Thrown + T) * B.
Variable toLocaleString : string -> string.

Record World := mkWorld {
  page : PageState;
  backend : B;
  calls : list Call;
  console : list (string * Thrown)
}.

Definition M (A : Type) : Type := World -> (Thrown + A) * World.

#[local] Instance M_ret : MRet M := fun A a w => (inr a, w).

#[local] Instance M_bind : MBind M := fun A A' k m w =>
  match m w with
  | (inl e, w') => (inl e, w')
  | (inr a, w') => k a w'
  end.

Definition update_page (f : PageState -> PageState) : M unit :=
  fun w => (inr tt, mkWorld (f (page w)) (backend w) (calls w) (console w)).

Definition setDaemonState (v : option DaemonState.t) : M unit :=
  update_page (fun p =>
    mkPage v (config p) (loading p) (error p) (actionInProgress p)).

Definition setConfig (v : option AppConfig.t) : M unit :=
  update_page (fun p =>
    mkPage (daemonState p) v (loading p) (error p) (actionInProgress p)).

Definition setLoading (v : bool) : M unit :=
  update_page (fun p =>
    mkPage (daemonState p) (config p) v (error p) (actionInProgress p)).

Definition setError (v : option string) : M unit :=
  update_page (fun p =>
    mkPage (daemonState p) (config p) (loading p) v (actionInProgress p)).

Definition setActionInProgress (v : option string) : M unit :=
  update_page (fun p =>
    mkPage (daemonState p) (config p) (loading p) (error p) v).

Definition console_error (msg : string) (e : Thrown) : M unit :=
  fun w => (inr tt,
            mkWorld (page w) (backend w) (calls w) (console w ++ [(msg, e)])).

(** [await invoke<T>(cmd, args)]: the call is logged, the backend answers
    and moves on; a rejection is thrown at the [await]. *)
Definition invoke {T} (c : Command T) : M T :=
  fun w =>
    let (r, b') := respond T c (backend w) in
    (r, mkWorld (page w) b' (calls w ++ [call_of c]) (console w)).

(** [try { body } catch (e) { handler e }]. *)
Definition try_catch {A} (body : M A) (handler : Thrown -> M A) : M A :=
  fun w =>
    match body w with
    | (inl e, w') => handler e w'
    | (inr a, w') => (inr a, w')
    end.

(** [try { body } catch (e) { handler e } finally { cleanup }]: the
    cleanup runs whatever the outcome; a value thrown by the cleanup
    itself replaces the outcome. *)
Definition try_catch_finally {A} (body : M A) (handler : Thrown -> M A)
    (cleanup : M unit) : M A :=
  fun w =>
    let (r, w1) := try_catch body handler w in
    match cleanup w1 with
    | (inl e, w2) => (inl e, w2)
    | (inr _, w2) => (r, w2)
    end.

(** [loadState], lines 68-77. *)
Definition loadState : M unit :=
  try_catch
    (state ← invoke get_backup_daemon_state;
     setDaemonState (Some state);;
     setError None)
    (fun e => setError (Some (display_message e "Failed to load daemon state"))).

(** [loadConfig], lines 79-86. *)
Definition loadConfig : M unit :=
  try_catch
    (cfg ← invoke get_config;
     setConfig (Some cfg))
    (fun e => console_error "Failed to load config:" e).

(** [init] of the mount effect, lines 89-93.  [Promise.all] starts
    [loadState] and then [loadConfig]; the two touch disjoint cells of
    the component state, so their continuations commute. *)
Definition init : M unit :=
  setLoading true;;
  loadState;;
  loadConfig;;
  setLoading false.

(** [handleEnable], lines 101-113. *)
Definition handleEnable : M unit :=
  try_catch_finally
    (setActionInProgress (Some "enable");;
     invoke enable_backup_daemon;;
     loadConfig;;
     loadState)
    (fun e => setError (Some (display_message e "Failed to enable daemon")))
    (setActionInProgress None).

(** [handleDisable], lines 115-127. *)
Definition handleDisable : M unit :=
  try_catch_finally
    (setActionInProgress (Some "disable");;
     invoke disable_backup_daemon;;
     loadConfig;;
     loadState)
    (fun e => setError (Some (display_message e "Failed to disable daemon")))
    (setActionInProgress None).

(** [handlePause], lines 129-140. *)
Definition handlePause : M unit :=
  try_catch_finally
    (setActionInProgress (Some "pause");;
     invoke pause_backup_daemon;;
     loadState)
    (fun e => setError (Some (display_message e "Failed to pause daemon")))
    (setActionInProgress None).

(** [handleResume], lines 142-153. *)
Definition handleResume : M unit :=
  try_catch_finally
    (setActionInProgress (Some "resume");;
     invoke resume_backup_daemon;;
     loadState)
    (fun e => setError (Some (display_message e "Failed to resume daemon")))
    (setActionInProgress None).

(** [handleRetry], lines 155-166. *)
Definition handleRetry (manifestCid : string) : M unit :=
  try_catch_finally
    (setActionInProgress (Some ("retry-" ++ manifestCid));;
     invoke (retry_failed_manifest manifestCid);;
     loadState)
    (fun e => setError (Some (display_message e "Failed to retry manifest")))
    (setActionInProgress None).

(** [formatDate], lines 176-183.  [new Date(s).toLocaleString()] does not
    throw on a string argument, so the [catch] branch is never taken. *)
Definition formatDate (dateStr : option string) : string :=
  match dateStr with
  | Some (String c s) => toLocaleString (String c s)
  | _ => "Never"
  end.

(** ** What the page reacts to

    The clicks the JSX binds ([onClick]) and the tick of the five-second
    timer of line 97; [run] is the handler the page binds to each. *)

Inductive Action :=
| Enable
| Disable
| Pause
| Resume
| Retry (manifestCid : string)
| DismissError
| Tick.

Definition run (a : Action) : M unit :=
  match a with
  | Enable => handleEnable
  | Disable => handleDisable
  | Pause => handlePause
  | Resume => handleResume
  | Retry manifestCid => handleRetry manifestCid
  | DismissError => setError None
  | Tick => loadState
  end.

(** ** The rendered page, lines 195-458

    The view keeps the parts of the JSX that carry controls or daemon
    records: the header buttons, the error banner, the configuration
    panel, the table of manifests in progress and the table of failed
    manifests.  An element's children are text and numbers. *)

Inductive Node :=
| Text (s : string)
| Num (n : Z).

Record Button := mkButton {
  className : string;
  onClick : Action;
  disabled : bool;
  label : string
}.

Record ConfigInfo := mkConfigInfo {
  pollInterval : list Node;
  maxConcurrentDownloads : list Node;
  maxRetries : list Node;
  autoDeleteTombstones : list Node
}.

Record InProgressRow := mkInProgressRow {
  ip_key : string;
  ip_cid_title : string;
  ip_cid : string;
  ip_peer_title : string;
  ip_peer : string;
  ip_sequence : Z;
  ip_status : string;
  ip_width : option Q;
  ip_progress_text : list Node;
  ip_started : string
}.

Record FailedRow := mkFailedRow {
  f_key : string;
  f_cid_title : string;
  f_cid : string;
  f_peer_title : string;
  f_peer : string;
  f_error : string;
  f_retries : list Node;
  f_failed_at : string;
  f_action : Button
}.

Record Dashboard := mkDashboard {
  header_actions : list Button;
  error_banner : option (string * Button);
  info_banner : bool;
  config_info : option ConfigInfo;
  in_progress_rows : list InProgressRow;
  failed_rows : list FailedRow
}.

Inductive View :=
| LoadingView
| DashboardView (d : Dashboard).

(** JavaScript's [/] yields [Infinity] or [NaN] on a zero divisor; the
    model makes that case [None], so that a width that is [Some] was
    computed without dividing by zero. *)
Definition js_div (a b : Z) : option Q :=
  if b =? 0 then None else Some (inject_Z a / inject_Z b)%Q.

(** The percentage of the progress bar, line 348:
    [manifest.totalFiles > 0 ? (manifest.filesDownloaded / manifest.totalFiles) * 100 : 0]. *)
Definition progress_width (manifest : InProgressManifest.t) : option Q :=
  if 0 <? InProgressManifest.totalFiles manifest
  then q ← js_div (InProgressManifest.filesDownloaded manifest)
                  (InProgressManifest.totalFiles manifest);
       Some (q * inject_Z 100)%Q
  else Some (inject_Z 0).

(** One row of the "Currently Processing" table, lines 335-359. *)
Definition in_progress_row (manifest : InProgressManifest.t) : InProgressRow :=
  let m := manifest in
  mkInProgressRow
    (InProgressManifest.manifestCid m)
    (InProgressManifest.manifestCid m)
    (shortenCid (InProgressManifest.manifestCid m))
    (InProgressManifest.sourcePeerId m)
    (shortenPeerId (InProgressManifest.sourcePeerId m))
    (InProgressManifest.sequenceNumber m)
    (InProgressManifest.currentStatus m)
    (progress_width m)
    ([Num (InProgressManifest.filesDownloaded m); Text "/";
      Num (InProgressManifest.totalFiles m)]
     ++ (if 0 <? InProgressManifest.filesFailed m
         then [Text " ("; Num (InProgressManifest.filesFailed m);
               Text " failed)"]
         else []))
    (formatDate (Some (InProgressManifest.startedAt m))).

(** [config?.backup_server.max_retries ?? 3], line 391. *)
Definition max_retries_or_default (config : option AppConfig.t) : Z :=
  match config with
  | Some c => BackupServerConfig.max_retries (AppConfig.backup_server c)
  | None => 3
  end.

(** One row of the "Failed Manifests" table, lines 385-402. *)
Definition failed_row (config : option AppConfig.t)
    (actionInProgress : option string) (manifest : FailedManifest.t)
    : FailedRow :=
  let m := manifest in
  let busy :=
    bool_decide
      (actionInProgress = Some ("retry-" ++ FailedManifest.manifestCid m)) in
  mkFailedRow
    (FailedManifest.manifestCid m)
    (FailedManifest.manifestCid m)
    (shortenCid (FailedManifest.manifestCid m))
    (FailedManifest.sourcePeerId m)
    (shortenPeerId (FailedManifest.sourcePeerId m))
    (FailedManifest.errorMessage m)
    [Num (FailedManifest.retryCount m); Text "/";
     Num (max_retries_or_default config)]
    (formatDate (Some (FailedManifest.failedAt m)))
    (mkButton "small" (Retry (FailedManifest.manifestCid m)) busy
       (if busy then "Retrying..." else "Retry")).

(** The configuration panel, lines 293-315. *)
Definition render_config (c : AppConfig.t) : ConfigInfo :=
  let b := AppConfig.backup_server c in
  mkConfigInfo
    [Num (BackupServerConfig.poll_interval_secs b); Text "s"]
    [Num (BackupServerConfig.max_concurrent_downloads b)]
    [Num (BackupServerConfig.max_retries b)]
    [Text (if BackupServerConfig.auto_delete_tombstones b then "Yes" else "No")].

(** The header buttons, lines 214-249. *)
Definition render_header (isEnabled : bool)
    (actionInProgress : option string) : list Button :=
  let busy name := bool_decide (actionInProgress = Some name) in
  if isEnabled then
    [ mkButton "secondary" Pause (busy "pause")
        (if busy "pause" then "Pausing..." else "Pause");
      mkButton "secondary" Resume (busy "resume")
        (if busy "resume" then "Resuming..." else "Resume");
      mkButton "danger" Disable (busy "disable")
        (if busy "disable" then "Disabling..." else "Disable Daemon") ]
  else
    [ mkButton "primary" Enable (busy "enable")
        (if busy "enable" then "Enabling..." else "Enable Daemon") ].

(** The component body after the hooks, lines 195-458. *)
Definition render (p : PageState) : View :=
  if loading p then LoadingView
  else
    let isEnabled :=
      match config p with
      | Some c => BackupServerConfig.enabled (AppConfig.backup_server c)
      | None => false
      end in
    let inProgressManifests :=
      match daemonState p with
      | Some s => Object_values (DaemonState.inProgressManifests s)
      | None => []
      end in
    let failedManifests :=
      match daemonState p with
      | Some s => DaemonState.failedManifests s
      | None => []
      end in
    DashboardView
      (mkDashboard
         (render_header isEnabled (actionInProgress p))
         (if Js.truthy (error p)
          then (fun e => (e, mkButton "error-close" DismissError false "×"))
                 <$> error p
          else None)
         (negb isEnabled)
         (render_config <$> config p)
         (in_progress_row <$> inProgressManifests)
         (failed_row (config p) (actionInProgress p) <$> failedManifests)).

End Page.

Arguments mkWorld {B} _ _ _ _.
Arguments page {B} _.
Arguments backend {B} _.
Arguments calls {B} _.
Arguments console {B} _.
Arguments loadState {B} _ _.
Arguments loadConfig {B} _ _.
Arguments init {B} _ _.
Arguments handleEnable {B} _ _.
Arguments handleDisable {B} _ _.
Arguments handlePause {B} _ _.
Arguments handleResume {B} _ _.
Arguments handleRetry {B} _ _ _.
Arguments run {B} _ _ _.
Arguments invoke {B} _ {T} _ _.

(** ** JSON documents

    What a command answers on the wire, and what the state file holds:
    a JSON value.  An object is the list of its members in order. *)

#[local] Unset Elimination Schemes.

Inductive Json :=
| JNull
| JBool (b : bool)
| JNumber (n : Z)
| JString (s : string)
| JArray (items : list Json)
| JObject (members : list (string * Json)).

#[local] Set Elimination Schemes.

(** The member names of an object; a value that is no object has none. *)
Definition keys (j : Json) : list string :=
  match j with
  | JObject members => members.*1
  | _ => []
  end.

(** [j[name]]: the first member of that name. *)
Definition member (name : string) (j : Json) : option Json :=
  match j with
  | JObject members =>
      snd <$> List.find (fun kv => String.eqb (fst kv) name) members
  | _ => None
  end.

(** ** The daemon core

    [services/backup_daemon.rs] is known through the specification only;
    what follows is written from its sections 3, 4.3 and 4.4.  The
    daemon's state is the [DaemonState.t] the page receives.  The peer
    network is an oracle: discovery answers per peer, a fetch answers
    per content identifier and attempt. *)

Module Daemon.

(** Modelled from the spec: [SourcePeerConfig] (section 3), the Rust
    type is missing; peer identifier, network addresses, logical folder
    identifier, manifest-server address. *)
Module SourcePeerConfig.
Record t := mk {
  peerId : string;
  addresses : list string;
  folderId : string;
  manifestServer : string
}.
End SourcePeerConfig.

(** Modelled from the spec: [ManifestPointer] (section 3), the result of
    a discovery query; the Rust type is missing. *)
Module ManifestPointer.
Record t := mk {
  manifestCid : string;
  sequenceNumber : Z;
  folderId : string
}.
End ManifestPointer.

(** Modelled from the spec: [FileEntry] (section 3); the Rust type is
    missing. *)
Module FileEntry.
Record t := mk {
  relativePath : string;
  cid : string;
  sizeBytes : Z;
  tombstone : bool
}.
End FileEntry.

(** Modelled from the spec: the parsed [Manifest] (section 3); the Rust
    type is missing. *)
Module Manifest.
Record t := mk {
  folderId : string;
  sequenceNumber : Z;
  entries : list FileEntry.t;
  generatedAt : string
}.
End Manifest.

(** Modelled from the spec: the configuration the daemon consumes
    (section 6); the Rust settings type is missing.  The scalar settings
    are the [backup_server] object the page declares; the spec adds the
    list of source peers. *)
Module Config.
Record t := mk {
  backup_server : BackupServerConfig.t;
  source_peers : list SourcePeerConfig.t
}.
End Config.

(** Modelled from the spec: the errors of the discovery client
    (section 4.1); the Rust client is missing. *)
Inductive DiscoveryError := Unreachable | Unauthorized | MalformedResponse.

(** Modelled from the spec: the errors of the content fetch client
    (section 4.2); the Rust client is missing. *)
Inductive FetchError := NotFound | NetworkError | Timeout.

(** Modelled from the spec: the calls the daemon makes to its
    collaborators, in order; the Rust daemon is missing. *)
Inductive Event :=
| Discovery (peerId : string)
| ManifestFetch (manifestCid : string)
| FileFetch (cid : string)
| LocalDelete (relativePath : string).

(** Modelled from the spec: an attempt to fetch the manifest blob of a
    given CID (section 4.3 step 3), as it shows in the log; the Rust
    daemon is missing. *)
Definition is_manifest_fetch (manifestCid : string) (e : Event) : bool :=
  match e with
  | ManifestFetch c => bool_decide (c = manifestCid)
  | _ => false
  end.

(** Modelled from the spec: the attempt count of a manifest, which the
    spec records as [retryCount] (section 4.2); the Rust daemon is
    missing. *)
Definition manifest_fetches (manifestCid : string) (log : list Event) : nat :=
  length (List.filter (is_manifest_fetch manifestCid) log).

Section Core.

(** Modelled from the spec: the spec fixes neither the wording of an
    error message nor the first status of a manifest in progress; both
    are parameters.  [describe None] is the message when no attempt was
    made at all. *)
Variable describe : option FetchError -> string.
Variable initial_status : string.

(** Modelled from the spec: [lastProcessedSequence] (section 4.3 step 2),
    the maximum sequence number among the peer's entries in
    [processedManifests], [None] being the sentinel "none processed";
    the Rust daemon is missing. *)
Definition lastProcessedSequence (s : DaemonState.t) (peerId : string)
    : option Z :=
  foldr
    (fun pm acc =>
       if bool_decide (ProcessedManifest.sourcePeerId pm = peerId)
       then Some (match acc with
                  | Some a => Z.max a (ProcessedManifest.sequenceNumber pm)
                  | None => ProcessedManifest.sequenceNumber pm
                  end)
       else acc)
    None
    (Object_values (DaemonState.processedManifests s)).

(** Modelled from the spec: the sequence-number comparison
    (section 4.3 step 2); the Rust daemon is missing. *)
Definition is_newer (sequenceNumber : Z) (last : option Z) : bool :=
  match last with
  | None => true
  | Some l => l <? sequenceNumber
  end.

(** Modelled from the spec: "no [InProgressManifest] already exists for
    this (sourcePeerId, sequenceNumber)" (section 4.3 step 3); the Rust
    daemon is missing. *)
Definition in_progress_for (s : DaemonState.t) (peerId : string)
    (sequenceNumber : Z) : bool :=
  existsb
    (fun ip =>
       bool_decide (InProgressManifest.sourcePeerId ip = peerId)
       && (InProgressManifest.sequenceNumber ip =? sequenceNumber))
    (Object_values (DaemonState.inProgressManifests s)).

(** Modelled from the spec: a manifest listed in [failedManifests] is
    terminal until an explicit retry (section 4.3, retry semantics); the
    Rust daemon is missing. *)
Definition is_failed (s : DaemonState.t) (manifestCid : string) : bool :=
  existsb
    (fun fm => bool_decide (FailedManifest.manifestCid fm = manifestCid))
    (DaemonState.failedManifests s).

(** Modelled from the spec: a poll stamps [lastPollTime] (section 8,
    idempotent re-poll); the Rust daemon is missing. *)
Definition set_lastPollTime (now : string) (s : DaemonState.t)
    : DaemonState.t :=
  DaemonState.mk
    (DaemonState.processedManifests s)
    (DaemonState.inProgressManifests s)
    (DaemonState.failedManifests s)
    now
    (DaemonState.stats s).

(** Modelled from the spec: how a manifest fetch ends (section 4.3
    steps 3 and 7); the Rust daemon is missing. *)
Inductive FetchOutcome :=
| Fetched (m : Manifest.t)
| Exhausted (last : option FetchError).

(** Modelled from the spec: the manifest fetch with its bounded retries
    (section 4.3 step 7 and retry semantics); the Rust daemon is missing.
    [remaining] attempts are left, [attempt] were made, [last] is the
    error of the latest one.  The result carries the number of attempts
    made.  The backoff between attempts is time and is left out. *)
Fixpoint fetch_with_retry (fetch : nat -> FetchError + Manifest.t)
    (remaining attempt : nat) (last : option FetchError)
    : FetchOutcome * nat :=
  match remaining with
  | O => (Exhausted last, attempt)
  | S r =>
      match fetch attempt with
      | inr m => (Fetched m, S attempt)
      | inl e => fetch_with_retry fetch r (S attempt) (Some e)
      end
  end.

(** Modelled from the spec: the non-tombstoned entries of a manifest
    (section 4.3 step 4); the Rust daemon is missing. *)
Definition regular_entries (m : Manifest.t) : list FileEntry.t :=
  List.filter (fun e => negb (FileEntry.tombstone e)) (Manifest.entries m).

(** Modelled from the spec: the tombstoned entries of a manifest
    (section 4.3 step 5); the Rust daemon is missing. *)
Definition tombstoned_entries (m : Manifest.t) : list FileEntry.t :=
  List.filter FileEntry.tombstone (Manifest.entries m).

(** Modelled from the spec: a new manifest is accepted by creating its
    [InProgressManifest] (section 4.3 step 3); the Rust daemon is
    missing. *)
Definition accept (now : string) (peerId : string)
    (ptr : ManifestPointer.t) (m : Manifest.t) (s : DaemonState.t)
    : DaemonState.t :=
  let cid := ManifestPointer.manifestCid ptr in
  DaemonState.mk
    (DaemonState.processedManifests s)
    (<[cid := InProgressManifest.mk cid peerId
                (ManifestPointer.sequenceNumber ptr) now
                (Z.of_nat (length (regular_entries m))) 0 0 initial_status]>
       (DaemonState.inProgressManifests s))
    (DaemonState.failedManifests s)
    (DaemonState.lastPollTime s)
    (DaemonState.stats s).

(** Modelled from the spec: a manifest whose fetch exhausted its retries
    leaves the manifests in progress and becomes a [FailedManifest]
    (section 4.3 step 7); the Rust daemon is missing. *)
Definition fail (now : string) (peerId manifestCid : string)
    (last : option FetchError) (attempts : nat) (s : DaemonState.t)
    : DaemonState.t :=
  DaemonState.mk
    (DaemonState.processedManifests s)
    (delete manifestCid (DaemonState.inProgressManifests s))
    (DaemonState.failedManifests s
     ++ [FailedManifest.mk manifestCid peerId now (describe last)
           (Z.of_nat attempts)])%list
    (DaemonState.lastPollTime s)
    (DaemonState.stats s).

(** Modelled from the spec: one peer's share of a poll cycle
    (section 4.3 steps 1-3 and 7); the Rust daemon is missing.  The poll
    stamps [lastPollTime]; a discovery error, a sequence number that is
    not newer, a manifest already in progress and a manifest that failed
    terminally all skip the peer. *)
Definition poll_peer (max_retries : Z) (now : string)
    (peer : SourcePeerConfig.t)
    (discovered : DiscoveryError + ManifestPointer.t)
    (fetchManifest : string -> nat -> FetchError + Manifest.t)
    (s : DaemonState.t) : DaemonState.t * list Event :=
  let peerId := SourcePeerConfig.peerId peer in
  let s0 := set_lastPollTime now s in
  match discovered with
  | inl _ => (s0, [Discovery peerId])
  | inr ptr =>
      let cid := ManifestPointer.manifestCid ptr in
      let seq := ManifestPointer.sequenceNumber ptr in
      if is_newer seq (lastProcessedSequence s peerId)
         && negb (in_progress_for s peerId seq)
         && negb (is_failed s cid)
      then
        match fetch_with_retry (fetchManifest cid) (Z.to_nat max_retries)
                0 None with
        | (Fetched m, attempts) =>
            (accept now peerId ptr m s0,
             Discovery peerId :: replicate attempts (ManifestFetch cid))
        | (Exhausted last, attempts) =>
            (fail now peerId cid last attempts s0,
             Discovery peerId :: replicate attempts (ManifestFetch cid))
        end
      else (s0, [Discovery peerId])
  end.

(** Modelled from the spec: the peers of a poll cycle are visited in
    turn (section 4.3 step 1); the Rust daemon is missing. *)
Fixpoint poll_peers (max_retries : Z) (now : string)
    (discover : SourcePeerConfig.t -> DiscoveryError + ManifestPointer.t)
    (fetchManifest : string -> nat -> FetchError + Manifest.t)
    (peers : list SourcePeerConfig.t) (s : DaemonState.t)
    : DaemonState.t * list Event :=
  match peers with
  | [] => (s, [])
  | peer :: rest =>
      let (s1, log1) :=
        poll_peer max_retries now peer (discover peer) fetchManifest s in
      let (s2, log2) :=
        poll_peers max_retries now discover fetchManifest rest s1 in
      (s2, (log1 ++ log2)%list)
  end.

(** Modelled from the spec: the poll cycle (section 4.3), which runs
    only while the daemon is enabled and not paused and visits every
    configured source peer; the Rust daemon is missing. *)
Definition poll_cycle (cfg : Config.t) (paused : bool) (now : string)
    (discover : SourcePeerConfig.t -> DiscoveryError + ManifestPointer.t)
    (fetchManifest : string -> nat -> FetchError + Manifest.t)
    (s : DaemonState.t) : DaemonState.t * list Event :=
  if BackupServerConfig.enabled (Config.backup_server cfg) && negb paused
  then poll_peers
         (BackupServerConfig.max_retries (Config.backup_server cfg))
         now discover fetchManifest (Config.source_peers cfg) s
  else (s, []).

(** Modelled from the spec: one file is fetched with at most
    [max_retries] attempts (section 4.3 step 4); the Rust daemon is
    missing.  The result is the success flag and the attempts made. *)
Fixpoint download_entry (fetchFile : nat -> bool) (remaining attempt : nat)
    : bool * nat :=
  match remaining with
  | O => (false, attempt)
  | S r =>
      if fetchFile attempt then (true, S attempt)
      else download_entry fetchFile r (S attempt)
  end.

(** Modelled from the spec: the bytes of a list of entries, for
    [totalSizeBytes] (section 3); the Rust daemon is missing. *)
Definition sum_sizes (l : list FileEntry.t) : Z :=
  foldr (fun e acc => FileEntry.sizeBytes e + acc) 0 l.

(** Modelled from the spec: the materialisation of an accepted manifest
    (section 4.3 steps 4-6); the Rust daemon is missing.  Regular
    entries are downloaded first, tombstones are applied afterwards to
    the files that are present, then the manifest in progress is
    replaced by its [ProcessedManifest] and the statistics grow.  The
    worker pool is seen through the results the orchestrator collects. *)
Definition process_manifest (cfg : Config.t) (now : string)
    (fetchFile : string -> nat -> bool)
    (ip : InProgressManifest.t) (m : Manifest.t)
    (st : DaemonState.t * gset string)
    : DaemonState.t * gset string * list Event :=
  let '(s, files) := st in
  let settings := Config.backup_server cfg in
  let bound := Z.to_nat (BackupServerConfig.max_retries settings) in
  let results : list (FileEntry.t * (bool * nat)) :=
    (fun e => (e, download_entry (fetchFile (FileEntry.cid e)) bound 0))
      <$> regular_entries m in
  let downloaded : list FileEntry.t := fst <$> List.filter (fun r => fst (snd r)) results in
  let files1 :=
    files ∪ list_to_set (FileEntry.relativePath <$> downloaded) in
  let doomed :=
    if BackupServerConfig.auto_delete_tombstones settings
    then List.filter
           (fun e => bool_decide (FileEntry.relativePath e ∈ files1))
           (tombstoned_entries m)
    else [] in
  let files2 :=
    files1 ∖ list_to_set (FileEntry.relativePath <$> doomed) in
  let cid := InProgressManifest.manifestCid ip in
  let record :=
    ProcessedManifest.mk cid
      (InProgressManifest.sourcePeerId ip)
      (InProgressManifest.sequenceNumber ip)
      (Manifest.folderId m)
      now
      (Z.of_nat (length downloaded))
      (sum_sizes downloaded)
      (Z.of_nat (length doomed)) in
  let old := DaemonState.stats s in
  let stats' :=
    DaemonStats.mk
      (DaemonStats.totalManifestsProcessed old + 1)
      (DaemonStats.totalFilesDownloaded old + Z.of_nat (length downloaded))
      (DaemonStats.totalBytesDownloaded old + sum_sizes downloaded)
      (DaemonStats.totalFilesDeleted old + Z.of_nat (length doomed))
      (Some now) in
  (DaemonState.mk
     (<[cid := record]> (DaemonState.processedManifests s))
     (delete cid (DaemonState.inProgressManifests s))
     (DaemonState.failedManifests s)
     (DaemonState.lastPollTime s)
     stats',
   files2,
   (concat ((fun r => replicate (snd (snd r))
                       (FileFetch (FileEntry.cid (fst r)))) <$> results)
    ++ ((fun e => LocalDelete (FileEntry.relativePath e)) <$> doomed))%list).

(** Modelled from the spec: [retryFailedManifest] (section 4.4) removes
    the entry from [failedManifests], so that the next poll cycle picks
    the manifest up again; the Rust daemon is missing. *)
Definition retry_failed_manifest (manifestCid : string) (s : DaemonState.t)
    : DaemonState.t :=
  DaemonState.mk
    (DaemonState.processedManifests s)
    (DaemonState.inProgressManifests s)
    (List.filter
       (fun fm => negb (bool_decide (FailedManifest.manifestCid fm = manifestCid)))
       (DaemonState.failedManifests s))
    (DaemonState.lastPollTime s)
    (DaemonState.stats s).

(** Modelled from the spec: the state-changing operations of a daemon
    run (sections 4.3 and 4.4): one peer's poll, the completion of the
    manifest in progress under a CID, and the retry command; the Rust
    daemon is missing. *)
Inductive Op :=
| Poll (max_retries : Z) (now : string) (peer : SourcePeerConfig.t)
    (discovered : DiscoveryError + ManifestPointer.t)
    (fetchManifest : string -> nat -> FetchError + Manifest.t)
| Complete (cfg : Config.t) (now : string)
    (fetchFile : string -> nat -> bool) (manifestCid : string)
    (m : Manifest.t)
| RetryFailed (manifestCid : string).

(** Modelled from the spec: one operation on the daemon state and the
    local files (sections 4.3 and 4.4); the Rust daemon is missing.  A
    completion acts on the manifest in progress under the CID and does
    nothing when there is none. *)
Definition perform_op (op : Op) (st : DaemonState.t * gset string)
    : DaemonState.t * gset string * list Event :=
  match op with
  | Poll max_retries now peer discovered fetchManifest =>
      let (s', log) :=
        poll_peer max_retries now peer discovered fetchManifest st.1 in
      (s', st.2, log)
  | Complete cfg now fetchFile manifestCid m =>
      match DaemonState.inProgressManifests st.1 !! manifestCid with
      | Some ip => process_manifest cfg now fetchFile ip m st
      | None => (st, [])
      end
  | RetryFailed manifestCid =>
      (retry_failed_manifest manifestCid st.1, st.2, [])
  end.

(** Modelled from the spec: a daemon run, the operations in order, with
    the log of all of them (section 4.3); the Rust daemon is missing. *)
Fixpoint perform (ops : list Op) (st : DaemonState.t * gset string)
    : DaemonState.t * gset string * list Event :=
  match ops with
  | [] => (st, [])
  | op :: rest =>
      let (st1, log1) := perform_op op st in
      let (st2, log2) := perform rest st1 in
      (st2, (log1 ++ log2)%list)
  end.

End Core.

(** Modelled from the spec: "DaemonState is created empty on first run"
    (section 3); the Rust daemon is missing.  The first poll time is
    whatever the daemon writes there. *)
Definition empty (lastPollTime : string) : DaemonState.t :=
  DaemonState.mk ∅ ∅ [] lastPollTime (DaemonStats.mk 0 0 0 0 None).


(** Modelled from the spec: the operation is the explicit retry of that
    CID (section 4.4); the Rust daemon is missing. *)
Definition retries (manifestCid : string) (op : Op) : bool :=
  match op with
  | RetryFailed c => bool_decide (c = manifestCid)
  | _ => false
  end.

(** Modelled from the spec: "Keyed by manifestCid in the state store"
    (section 3): every record of the two maps is filed under its own
    [manifestCid]; the Rust daemon is missing. *)
Definition keyed (s : DaemonState.t) : Prop :=
  (forall k pm, DaemonState.processedManifests s !! k = Some pm ->
                ProcessedManifest.manifestCid pm = k)
  /\ (forall k ip, DaemonState.inProgressManifests s !! k = Some ip ->
                   InProgressManifest.manifestCid ip = k).

(** Modelled from the spec: the JSON form of a [ProcessedManifest]
    (sections 3 and 6); the Rust serialisation is missing. *)
Definition ProcessedManifest_json (pm : ProcessedManifest.t) : Json :=
  JObject
    [ ("manifestCid", JString (ProcessedManifest.manifestCid pm));
      ("sourcePeerId", JString (ProcessedManifest.sourcePeerId pm));
      ("sequenceNumber", JNumber (ProcessedManifest.sequenceNumber pm));
      ("folderId", JString (ProcessedManifest.folderId pm));
      ("processedAt", JString (ProcessedManifest.processedAt pm));
      ("fileCount", JNumber (ProcessedManifest.fileCount pm));
      ("totalSizeBytes", JNumber (ProcessedManifest.totalSizeBytes pm));
      ("deletedCount", JNumber (ProcessedManifest.deletedCount pm)) ].

(** Modelled from the spec: the JSON form of an [InProgressManifest]
    (sections 3 and 6); the Rust serialisation is missing. *)
Definition InProgressManifest_json (ip : InProgressManifest.t) : Json :=
  JObject
    [ ("manifestCid", JString (InProgressManifest.manifestCid ip));
      ("sourcePeerId", JString (InProgressManifest.sourcePeerId ip));
      ("sequenceNumber", JNumber (InProgressManifest.sequenceNumber ip));
      ("startedAt", JString (InProgressManifest.startedAt ip));
      ("totalFiles", JNumber (InProgressManifest.totalFiles ip));
      ("filesDownloaded", JNumber (InProgressManifest.filesDownloaded ip));
      ("filesFailed", JNumber (InProgressManifest.filesFailed ip));
      ("currentStatus", JString (InProgressManifest.currentStatus ip)) ].

(** Modelled from the spec: the JSON form of a [FailedManifest]
    (sections 3 and 6); the Rust serialisation is missing. *)
Definition FailedManifest_json (fm : FailedManifest.t) : Json :=
  JObject
    [ ("manifestCid", JString (FailedManifest.manifestCid fm));
      ("sourcePeerId", JString (FailedManifest.sourcePeerId fm));
      ("failedAt", JString (FailedManifest.failedAt fm));
      ("errorMessage", JString (FailedManifest.errorMessage fm));
      ("retryCount", JNumber (FailedManifest.retryCount fm)) ].

(** Modelled from the spec: the JSON form of the [DaemonStats]
    (sections 3 and 6); the Rust serialisation is missing. *)
Definition DaemonStats_json (st : DaemonStats.t) : Json :=
  JObject
    [ ("totalManifestsProcessed",
       JNumber (DaemonStats.totalManifestsProcessed st));
      ("totalFilesDownloaded", JNumber (DaemonStats.totalFilesDownloaded st));
      ("totalBytesDownloaded", JNumber (DaemonStats.totalBytesDownloaded st));
      ("totalFilesDeleted", JNumber (DaemonStats.totalFilesDeleted st));
      ("lastActivityAt",
       match DaemonStats.lastActivityAt st with
       | Some t => JString t
       | None => JNull
       end) ].

(** Modelled from the spec: [getState() -> DaemonState] (section 4.4),
    the answer of [get_backup_daemon_state] (section 6): the full
    snapshot, as the JSON document shaped like the [DaemonState] of
    section 3; the Rust command is missing.  A map is an object with
    one member per key. *)
Definition getState (s : DaemonState.t) : Json :=
  JObject
    [ ("processedManifests",
       JObject ((fun kv => (kv.1, ProcessedManifest_json kv.2))
                  <$> map_to_list (DaemonState.processedManifests s)));
      ("inProgressManifests",
       JObject ((fun kv => (kv.1, InProgressManifest_json kv.2))
                  <$> map_to_list (DaemonState.inProgressManifests s)));
      ("failedManifests",
       JArray (FailedManifest_json <$> DaemonState.failedManifests s));
      ("lastPollTime", JString (DaemonState.lastPollTime s));
      ("stats", DaemonStats_json (DaemonState.stats s)) ].

End Daemon.

(** ** The commands of the control surface, by name

    The command each action is expected to send first, and the fallback
    text of its [catch] block.  Closing the error banner sends nothing. *)

Definition named_command (a : Action) : option Call :=
  match a with
  | Enable => Some (mkCall "enable_backup_daemon" [])
  | Disable => Some (mkCall "disable_backup_daemon" [])
  | Pause => Some (mkCall "pause_backup_daemon" [])
  | Resume => Some (mkCall "resume_backup_daemon" [])
  | Retry manifestCid =>
      Some (mkCall "retry_failed_manifest" [("manifestCid", manifestCid)])
  | Tick => Some (mkCall "get_backup_daemon_state" [])
  | DismissError => None
  end.

Definition daemon_commands : list string :=
  [ "enable_backup_daemon"; "disable_backup_daemon"; "pause_backup_daemon";
    "resume_backup_daemon"; "get_backup_daemon_state";
    "retry_failed_manifest" ].

(** The command of a control handler, as the backend sees it. *)
Definition control_command (a : Action) : option (Command unit) :=
  match a with
  | Enable => Some enable_backup_daemon
  | Disable => Some disable_backup_daemon
  | Pause => Some pause_backup_daemon
  | Resume => Some resume_backup_daemon
  | Retry manifestCid => Some (retry_failed_manifest manifestCid)
  | DismissError | Tick => None
  end.

Definition fallback_text (a : Action) : string :=
  match a with
  | Enable => "Failed to enable daemon"
  | Disable => "Failed to disable daemon"
  | Pause => "Failed to pause daemon"
  | Resume => "Failed to resume daemon"
  | Retry _ => "Failed to retry manifest"
  | DismissError | Tick => "Failed to load daemon state"
  end.

(** The reads that follow a control command: the configuration and the
    daemon state. *)
Definition is_reload (c : Call) : Prop :=
  c = mkCall "get_config" [] \/ c = mkCall "get_backup_daemon_state" [].

(** Modelled from the spec: the peers asked by a daemon run, in order
    (section 4.3 step 1); the Rust daemon is missing. *)
Definition discoveries (log : list Daemon.Event) : list string :=
  omap (fun e => match e with
                 | Daemon.Discovery peerId => Some peerId
                 | _ => None
                 end) log.

(** ** Sample inputs *)

Module Sample.

Definition failed : FailedManifest.t :=
  FailedManifest.mk "zDvZRwzmAaBbCcDdEeFfGgHhIiJjKk" "16Uiu2HAmSourcePeer0000001"
    "2026-01-05T10:00:00Z" "manifest fetch timed out" 3.

Definition in_progress : InProgressManifest.t :=
  InProgressManifest.mk "zDvZRwzmInProgress0001" "16Uiu2HAmSourcePeer0000001"
    7 "2026-01-05T10:01:00Z" 4 1 0 "downloading".

Definition idle : InProgressManifest.t :=
  InProgressManifest.mk "zDvZRwzmEmptyManifest1" "16Uiu2HAmSourcePeer0000001"
    8 "2026-01-05T10:02:00Z" 0 0 0 "downloading".

Definition processed : ProcessedManifest.t :=
  ProcessedManifest.mk "zDvZRwzmProcessed00001" "P1" 5 "folder-1"
    "2026-01-05T09:00:00Z" 1 120 0.

Definition stats : DaemonStats.t :=
  DaemonStats.mk 1 1 120 0 (Some "2026-01-05T09:00:00Z").

Definition state : DaemonState.t :=
  DaemonState.mk
    {[ "zDvZRwzmProcessed00001" := processed ]}
    {[ "zDvZRwzmInProgress0001" := in_progress;
       "zDvZRwzmEmptyManifest1" := idle ]}
    [failed]
    "2026-01-05T10:02:00Z"
    stats.

Definition settings : BackupServerConfig.t :=
  BackupServerConfig.mk true 30 3 3 true.

Definition app_config : AppConfig.t := AppConfig.mk settings.

Definition loaded_page : PageState :=
  mkPage (Some state) (Some app_config) false None None.

(** A backend that holds a daemon state and the configuration, and
    serves the commands from them. *)
Definition Backend : Type := DaemonState.t * AppConfig.t.

Definition set_enabled (v : bool) (c : AppConfig.t) : AppConfig.t :=
  let b := AppConfig.backup_server c in
  AppConfig.mk
    (BackupServerConfig.mk v
       (BackupServerConfig.poll_interval_secs b)
       (BackupServerConfig.max_concurrent_downloads b)
       (BackupServerConfig.max_retries b)
       (BackupServerConfig.auto_delete_tombstones b)).

Definition respond T (c : Command T) (b : Backend)
    : (Thrown + T) * Backend :=
  match c in Command T return (Thrown + T) * Backend with
  | get_backup_daemon_state => (inr (fst b), b)
  | get_config => (inr (snd b), b)
  | enable_backup_daemon => (inr tt, (fst b, set_enabled true (snd b)))
  | disable_backup_daemon => (inr tt, (fst b, set_enabled false (snd b)))
  | pause_backup_daemon => (inr tt, b)
  | resume_backup_daemon => (inr tt, b)
  | retry_failed_manifest manifestCid =>
      if Daemon.is_failed (fst b) manifestCid
      then (inr tt, (Daemon.retry_failed_manifest manifestCid (fst b), snd b))
      else (inl (ThrownString "Manifest not found in failed list"), b)
  end.

(** A backend that rejects every command with an [Error]. *)
Definition reject T (c : Command T) (b : unit) : (Thrown + T) * unit :=
  (inl (ThrownError "Backup daemon not initialized"), b).

Definition world : World Backend :=
  mkWorld loaded_page (state, app_config) [] [].

Definition down : World unit :=
  mkWorld loaded_page tt [] [].

Definition toLocaleString (s : string) : string := s.

(** A source peer, its pointer to manifest 6 and the manifest itself. *)
Definition peer : Daemon.SourcePeerConfig.t :=
  Daemon.SourcePeerConfig.mk "P1" ["/ip4/10.0.0.2/tcp/8070"] "folder-1"
    "http://10.0.0.2:8085".

Definition pointer (sequenceNumber : Z) : Daemon.ManifestPointer.t :=
  Daemon.ManifestPointer.mk "zDvZRwzmManifestSeq6" sequenceNumber "folder-1".

Definition manifest : Daemon.Manifest.t :=
  Daemon.Manifest.mk "folder-1" 6
    [ Daemon.FileEntry.mk "a.txt" "cidA" 100 false;
      Daemon.FileEntry.mk "b.txt" "cidB" 20 true ]
    "2026-01-05T09:59:00Z".

Definition daemon_config : Daemon.Config.t :=
  Daemon.Config.mk settings [peer].

Definition describe (e : option Daemon.FetchError) : string :=
  match e with
  | Some Daemon.NotFound => "manifest not found"
  | Some Daemon.NetworkError => "network error"
  | Some Daemon.Timeout => "manifest fetch timed out"
  | None => "no fetch attempted"
  end.

Definition always_timeout (cid : string) (attempt : nat)
    : Daemon.FetchError + Daemon.Manifest.t :=
  inl Daemon.Timeout.

Definition always_found (cid : string) (attempt : nat)
    : Daemon.FetchError + Daemon.Manifest.t :=
  inr manifest.

(** The scenario of the spec's section 8: peer "P1" publishes manifest 1
    with [a.txt], then manifest 2 with [a.txt] tombstoned. *)
Definition empty_state : DaemonState.t :=
  DaemonState.mk ∅ ∅ [] "" (DaemonStats.mk 0 0 0 0 None).

Definition manifest1 : Daemon.Manifest.t :=
  Daemon.Manifest.mk "folder-1" 1
    [Daemon.FileEntry.mk "a.txt" "cidA" 100 false] "t0".

Definition manifest2 : Daemon.Manifest.t :=
  Daemon.Manifest.mk "folder-1" 2
    [Daemon.FileEntry.mk "a.txt" "cidA" 100 true] "t2".

Definition publish (cid : string) (attempt : nat)
    : Daemon.FetchError + Daemon.Manifest.t :=
  if String.eqb cid "m1" then inr manifest1
  else if String.eqb cid "m2" then inr manifest2
  else inl Daemon.NotFound.

(** Poll one pointer of "P1" and, when the manifest is accepted,
    materialise it. *)
Definition poll_and_process (now : string) (ptr : Daemon.ManifestPointer.t)
    (st : DaemonState.t * gset string) : DaemonState.t * gset string :=
  let s1 :=
    (Daemon.poll_peer describe "downloading" 3 now peer (inr ptr) publish
       st.1).1 in
  match DaemonState.inProgressManifests s1
        !! Daemon.ManifestPointer.manifestCid ptr,
        publish (Daemon.ManifestPointer.manifestCid ptr) 0 with
  | Some ip, inr m =>
      (Daemon.process_manifest daemon_config now (fun _ _ => true) ip m
         (s1, st.2)).1
  | _, _ => (s1, st.2)
  end.

Definition after_manifest1 : DaemonState.t * gset string :=
  poll_and_process "t1" (Daemon.ManifestPointer.mk "m1" 1 "folder-1")
    (empty_state, ∅).

Definition after_manifest2 : DaemonState.t * gset string :=
  poll_and_process "t3" (Daemon.ManifestPointer.mk "m2" 2 "folder-1")
    after_manifest1.

End Sample.

(** ** The rest of the dashboard

    The statistics cards, the line of last activity and the table of
    processed manifests, lines 267-290 and 410-455. *)

Module JsArray.

(** [Array.prototype.sort(cmp)]: the sort is stable, and an element [x]
    goes before [y] when [cmp x y <= 0].  For a comparator that is not
    consistent ECMAScript leaves the order to the implementation; the
    insertion below is then one of the permitted outcomes. *)
Fixpoint insert {T} (cmp : T -> T -> Z) (x : T) (l : list T) : list T :=
  match l with
  | [] => [x]
  | y :: l' => if cmp x y <=? 0 then x :: y :: l' else y :: insert cmp x l'
  end.

Definition sort {T} (cmp : T -> T -> Z) (l : list T) : list T :=
  foldr (insert cmp) [] l.

End JsArray.

Record StatsCards := mkStatsCards {
  card_manifests : Z;
  card_files : Z;
  card_data : string;
  card_deleted : Z
}.

Record LastTimes := mkLastTimes {
  last_activity : string;
  last_poll : string
}.

Record ProcessedRow := mkProcessedRow {
  pr_key : string;
  pr_cid_title : string;
  pr_cid : string;
  pr_peer_title : string;
  pr_peer : string;
  pr_folder_title : string;
  pr_folder : string;
  pr_sequence : Z;
  pr_files : Z;
  pr_size : string;
  pr_deleted : Node;
  pr_processed_at : string
}.

Inductive ProcessedBody :=
| EmptyState (message : string)
| ProcessedTable (rows : list ProcessedRow).

Record ProcessedSection := mkProcessedSection {
  processed_count : Z;
  processed_body : ProcessedBody
}.

Record Summary := mkSummary {
  stats_cards : StatsCards;
  last_times : LastTimes;
  processed_section : ProcessedSection
}.

Section Summary.

Variable toLocaleString : string -> string.

(** [new Date(s).getTime()]: the time in milliseconds, [None] for the
    [NaN] of an invalid date. *)
Variable getTime : string -> option Z.

(** [formatBytes] on a non-zero argument, lines 170-173: logarithms,
    powers and [toFixed] on floating-point numbers. *)
Variable formatBytes_nonzero : Z -> string.

(** [formatBytes], lines 168-174. *)
Definition formatBytes (bytes : Z) : string :=
  if bytes =? 0 then "0 B" else formatBytes_nonzero bytes.

(** The comparator of line 434,
    [new Date(b.processedAt).getTime() - new Date(a.processedAt).getTime()].
    A [NaN] result counts as 0 in [sort].  The difference of two times
    is exact up to rounding, which keeps its sign. *)
Definition by_processedAt_desc (a b : ProcessedManifest.t) : Z :=
  match getTime (ProcessedManifest.processedAt b),
        getTime (ProcessedManifest.processedAt a) with
  | Some tb, Some ta => tb - ta
  | _, _ => 0
  end.

(** The order the comparator stands for when both timestamps parse:
    [a] was processed no earlier than [b]. *)
Definition not_older (a b : ProcessedManifest.t) : Prop :=
  exists ta tb,
    getTime (ProcessedManifest.processedAt a) = Some ta
    /\ getTime (ProcessedManifest.processedAt b) = Some tb
    /\ tb <= ta.

(** The statistics cards, lines 268-285: [stats?.field ?? 0]. *)
Definition render_stats (p : PageState) : StatsCards :=
  let stats := DaemonState.stats <$> daemonState p in
  mkStatsCards
    (default 0 (DaemonStats.totalManifestsProcessed <$> stats))
    (default 0 (DaemonStats.totalFilesDownloaded <$> stats))
    (formatBytes (default 0 (DaemonStats.totalBytesDownloaded <$> stats)))
    (default 0 (DaemonStats.totalFilesDeleted <$> stats)).

(** The line of last activity, lines 287-290. *)
Definition render_last_times (p : PageState) : LastTimes :=
  mkLastTimes
    (formatDate toLocaleString
       (match daemonState p with
        | Some s => DaemonStats.lastActivityAt (DaemonState.stats s)
        | None => None
        end))
    (formatDate toLocaleString (DaemonState.lastPollTime <$> daemonState p)).

(** One row of the "Processed Manifests" table, lines 436-449. *)
Definition processed_row (manifest : ProcessedManifest.t) : ProcessedRow :=
  let m := manifest in
  mkProcessedRow
    (ProcessedManifest.manifestCid m)
    (ProcessedManifest.manifestCid m)
    (shortenCid (ProcessedManifest.manifestCid m))
    (ProcessedManifest.sourcePeerId m)
    (shortenPeerId (ProcessedManifest.sourcePeerId m))
    (ProcessedManifest.folderId m)
    (Js.slice (ProcessedManifest.folderId m) 0 (Some 8))
    (ProcessedManifest.sequenceNumber m)
    (ProcessedManifest.fileCount m)
    (formatBytes (ProcessedManifest.totalSizeBytes m))
    (if 0 <? ProcessedManifest.deletedCount m
     then Num (ProcessedManifest.deletedCount m)
     else Text "-")
    (formatDate toLocaleString (Some (ProcessedManifest.processedAt m))).

(** The "Processed Manifests" section, lines 411-455. *)
Definition render_processed (p : PageState) : ProcessedSection :=
  let processedManifests :=
    match daemonState p with
    | Some s => Object_values (DaemonState.processedManifests s)
    | None => []
    end in
  mkProcessedSection
    (Z.of_nat (length processedManifests))
    (if Z.of_nat (length processedManifests) =? 0
     then EmptyState
            "No manifests processed yet. Waiting for source peers to send manifests..."
     else ProcessedTable
            (processed_row
               <$> JsArray.sort by_processedAt_desc processedManifests)).

(** The three parts above as the component returns them: nothing while
    the page is loading (the early return of lines 195-202). *)
Definition render_summary (p : PageState) : option Summary :=
  if loading p then None
  else Some (mkSummary (render_stats p) (render_last_times p)
               (render_processed p)).

End Summary.

(** The backend state the final state query of a control handler meets:
    enable and disable reload the configuration first. *)
Definition before_state_query {B}
    (respond : forall T, Command T -> B -> (Thrown + T) * B)
    (a : Action) (b : B) : B :=
  match a with
  | Enable | Disable => (respond _ get_config b).2
  | _ => b
  end.

(** The calls a control handler sends when its command succeeds. *)
Definition reloads (a : Action) : list Call :=
  match a with
  | Enable | Disable =>
      [mkCall "get_config" []; mkCall "get_backup_daemon_state" []]
  | Pause | Resume | Retry _ => [mkCall "get_backup_daemon_state" []]
  | DismissError | Tick => []
  end.

(** More sample inputs. *)
Module Sample2.

Definition older : ProcessedManifest.t :=
  ProcessedManifest.mk "zDvZRwzmProcessed00000" "P1" 4 "folder-1-abcdef"
    "2026-01-04T09:00:00Z" 2 2048 1.

(** Timestamps of the samples, in milliseconds. *)
Definition getTime (s : string) : option Z :=
  if String.eqb s "2026-01-05T09:00:00Z" then Some 1767603600000
  else if String.eqb s "2026-01-04T09:00:00Z" then Some 1767517200000
  else None.

Definition formatBytes_nonzero (bytes : Z) : string := "some bytes".

Definition state : DaemonState.t :=
  DaemonState.mk
    {[ "zDvZRwzmProcessed00001" := Sample.processed;
       "zDvZRwzmProcessed00000" := older ]}
    ∅ [Sample.failed] "2026-01-05T10:02:00Z" Sample.stats.

Definition page : PageState :=
  mkPage (Some state) (Some Sample.app_config) false None None.

Definition retrying : PageState :=
  mkPage (Some state) (Some Sample.app_config) false None
    (Some "retry-zDvZRwzmAaBbCcDdEeFfGgHhIiJjKk").

(** A backend that rejects every command with the empty string. *)
Definition reject_silently T (c : Command T) (b : unit)
    : (Thrown + T) * unit :=
  (inl (ThrownString EmptyString), b).

(** A backend that accepts the control commands and the configuration
    query but whose state query fails. *)
Definition state_unavailable T (c : Command T) (b : unit)
    : (Thrown + T) * unit :=
  match c in Command T return (Thrown + T) * unit with
  | get_backup_daemon_state => (inl ThrownOther, b)
  | get_config => (inr Sample.app_config, b)
  | enable_backup_daemon => (inr tt, b)
  | disable_backup_daemon => (inr tt, b)
  | pause_backup_daemon => (inr tt, b)
  | resume_backup_daemon => (inr tt, b)
  | retry_failed_manifest _ => (inr tt, b)
  end.

Definition half_done : InProgressManifest.t :=
  InProgressManifest.mk "zDvZRwzmInProgress0002" "P1" 9
    "2026-01-05T10:03:00Z" 4 2 0 "downloading".

Definition overshoot : InProgressManifest.t :=
  InProgressManifest.mk "zDvZRwzmInProgress0003" "P1" 10
    "2026-01-05T10:04:00Z" 4 5 0 "downloading".

(** The first half of the spec's scenario as a run: manifest 1 of "P1"
    is accepted and completed. *)
Definition first_run : list Daemon.Op :=
  [ Daemon.Poll 3 "t1" Sample.peer
      (inr (Daemon.ManifestPointer.mk "m1" 1 "folder-1")) Sample.publish;
    Daemon.Complete Sample.daemon_config "t1" (fun _ _ => true) "m1"
      Sample.manifest1 ].


(** Work on other manifests, and a poll that meets pointer 6 again,
    this time with a storage node that would serve it. *)
Definition other_work : list Daemon.Op :=
  [ Daemon.Poll 3 "t5" Sample.peer (inr (Sample.pointer 6))
      Sample.always_found;
    Daemon.Poll 3 "t6" Sample.peer
      (inr (Daemon.ManifestPointer.mk "m2" 9 "folder-1")) Sample.publish;
    Daemon.Complete Sample.daemon_config "t7" (fun _ _ => true) "m2"
      Sample.manifest2;
    Daemon.RetryFailed "zDvZRwzmAaBbCcDdEeFfGgHhIiJjKk";
    Daemon.Poll 3 "t8" Sample.peer (inr (Sample.pointer 6))
      Sample.always_found ].

End Sample2.

(** * Properties *)

(** ** JavaScript strings *)

Lemma Js_length_take n s :
  (n <= String.length s)%nat -> String.length (Js.take n s) = n.
Proof.
  revert s; induction n as [|n IH]; intros [|c s] H; simpl in *;
    try reflexivity; try lia.
  f_equal. apply IH. lia.
Qed.

Lemma Js_length_drop n s :
  String.length (Js.drop n s) = (String.length s - n)%nat.
Proof.
  revert s; induction n as [|n IH]; intros [|c s]; simpl; try reflexivity.
  apply IH.
Qed.

Lemma Js_app_cons c (s t : string) : String c s ++ t = String c (s ++ t).
Proof. reflexivity. Qed.

Lemma Js_app_nil_r (s : string) : s ++ EmptyString = s.
Proof.
  induction s as [|c s IH]; [reflexivity|]. now rewrite Js_app_cons, IH.
Qed.

Lemma Js_length_app (s t : string) :
  String.length (s ++ t) = (String.length s + String.length t)%nat.
Proof.
  induction s as [|c s IH]; [reflexivity|].
  rewrite Js_app_cons. simpl. now rewrite IH.
Qed.

Lemma Js_take_app_drop n s : Js.take n s ++ Js.drop n s = s.
Proof.
  revert s; induction n as [|n IH]; intros [|c s]; simpl; try reflexivity.
  now rewrite Js_app_cons, IH.
Qed.

Lemma Js_drop_all s : Js.drop (String.length s) s = EmptyString.
Proof. induction s; simpl; auto. Qed.

(** [slice(0, k)] is the prefix of [k] code units when the string is long
    enough. *)
Lemma Js_slice_prefix s k :
  0 < k <= Js.length s -> Js.slice s 0 (Some k) = Js.take (Z.to_nat k) s.
Proof.
  intros Hk. unfold Js.slice, Js.clamp.
  destruct (0 <? 0) eqn:E0; [discriminate|].
  destruct (k <? 0) eqn:Ek; [apply Z.ltb_lt in Ek; lia|].
  rewrite (Z.min_l 0) by (unfold Js.length; lia).
  rewrite (Z.min_l k) by lia.
  destruct (k <=? 0) eqn:Ele; [apply Z.leb_le in Ele; lia|].
  now rewrite Z.sub_0_r.
Qed.

(** [slice(-k)] is the suffix of [k] code units when the string is long
    enough. *)
Lemma Js_slice_suffix s k :
  0 < k <= Js.length s ->
  Js.slice s (- k) None = Js.drop (Z.to_nat (Js.length s - k)) s.
Proof.
  intros Hk. unfold Js.slice, Js.clamp.
  destruct (- k <? 0) eqn:Ek; [|apply Z.ltb_ge in Ek; lia].
  rewrite Z.max_l by lia.
  destruct (Js.length s <=? Js.length s + - k) eqn:Ele;
    [apply Z.leb_le in Ele; lia|].
  replace (Js.length s + - k) with (Js.length s - k) by lia.
  set (d := Z.to_nat (Js.length s - k)).
  assert (Hd : (d <= String.length s)%nat) by (unfold d, Js.length in *; lia).
  rewrite <- (Js_take_app_drop (Z.to_nat (Js.length s - (Js.length s - k)))
               (Js.drop d s))
    at 2.
  assert (Hlen : Z.to_nat (Js.length s - (Js.length s - k))
                 = String.length (Js.drop d s)).
  { rewrite Js_length_drop. unfold d, Js.length in *. lia. }
  rewrite Hlen.
  now rewrite Js_drop_all, Js_app_nil_r.
Qed.


(** ** The string helpers *)

Example shortenCid_short : shortenCid "bafy1234" = "bafy1234".
Proof. reflexivity. Qed.

Example shortenCid_16 : shortenCid "0123456789abcdef" = "0123456789abcdef".
Proof. reflexivity. Qed.

Example shortenCid_17 :
  shortenCid "0123456789abcdefg" = "01234567...9abcdefg".
Proof. reflexivity. Qed.

Example shortenPeerId_long :
  shortenPeerId "16Uiu2HAmPeerIdentifier01" = "16Uiu2HAmPee...".
Proof. reflexivity. Qed.

(** C10.  [shortenCid] returns a CID of at most 16 code units unchanged;
    a longer one becomes its first 8 code units, the literal ["..."] and
    its last 8 code units, which is a string of exactly 19 code units. *)
Theorem shortenCid_spec (cid : string) :
  let n := String.length cid in
  if Js.length cid <=? 16 then shortenCid cid = cid
  else shortenCid cid = Js.take 8 cid ++ "..." ++ Js.drop (n - 8) cid
       /\ Js.length (shortenCid cid) = 19.
Proof.
  intros n. unfold shortenCid.
  destruct (Js.length cid <=? 16) eqn:E; [reflexivity|].
  apply Z.leb_gt in E.
  rewrite Js_slice_prefix by lia.
  change (Js.slice cid (-8) None) with (Js.slice cid (Z.opp 8) None).
  rewrite Js_slice_suffix by lia.
  replace (Z.to_nat 8) with 8%nat by reflexivity.
  replace (Z.to_nat (Js.length cid - 8)) with (n - 8)%nat
    by (unfold Js.length, n; lia).
  split; [reflexivity|].
  unfold Js.length in *. fold n in E.
  rewrite !Js_length_app, Js_length_take, Js_length_drop by (fold n; lia).
  fold n. simpl String.length. lia.
Qed.


(** ** The page *)

Section PageFacts.

Context {B : Type}.
Variable respond : forall T, Command T -> B -> (Thrown + T) * B.
Variable toLocaleString : string -> string.

Implicit Types (w : World B) (a : Action) (e : Thrown).

Local Open Scope list_scope.

(** Symbolic execution of a handler: unfold the monad and the setters,
    then split on every answer of the backend. *)
Ltac unfold_page :=
  unfold run, handleEnable, handleDisable, handlePause, handleResume,
    handleRetry, loadState, loadConfig, try_catch_finally, try_catch,
    invoke, setDaemonState, setConfig, setLoading, setError,
    setActionInProgress, console_error, update_page,
    mbind, M_bind, mret, M_ret in *.

Ltac answer :=
  match goal with
  | |- context [respond ?T ?c ?b] =>
      let r := fresh "r" in
      let b' := fresh "b" in
      let E := fresh "E" in
      destruct (respond T c b) as [[r|r] b'] eqn:E; cbn [fst snd] in *
  end.

Ltac exec := unfold_page; cbn; repeat (answer; cbn).

(** [loadState] never throws: its [catch] block only sets the error. *)
Lemma loadState_returns w : (loadState respond w).1 = inr tt.
Proof using Type. exec; reflexivity. Qed.

Lemma loadConfig_returns w : (loadConfig respond w).1 = inr tt.
Proof using Type. exec; reflexivity. Qed.

(** [loadState] sends the state query and nothing else. *)
Lemma loadState_calls w :
  calls (loadState respond w).2
  = calls w ++ [mkCall "get_backup_daemon_state" []].
Proof using Type. exec; reflexivity. Qed.

Lemma loadConfig_calls w :
  calls (loadConfig respond w).2 = calls w ++ [mkCall "get_config" []].
Proof using Type. exec; reflexivity. Qed.

(** The mount effect ends with the page loaded, whatever the backend
    answers. *)
Lemma init_loaded w :
  (init respond w).1 = inr tt /\ loading (page (init respond w).2) = false.
Proof using Type. unfold init. exec; auto. Qed.


(** C1.  Every action of the control surface first sends the command
    named after it, with the failed manifest's [manifestCid] as the
    argument of a retry; what follows is only the reload of the
    configuration and of the daemon state.  The names sent are the six
    daemon commands and each of the six is sent by some action.  The
    state query stores the snapshot it receives, whole.  Closing the
    error banner sends nothing. *)
Theorem control_surface_commands a (k : Call) w :
  named_command a = Some k ->
  let out := run respond a w in
  (exists rest, calls out.2 = calls w ++ k :: rest /\ Forall is_reload rest)
  /\ cmd k ∈ daemon_commands
  /\ Forall (fun name => exists a', cmd <$> named_command a' = Some name)
       daemon_commands
  /\ match (respond _ get_backup_daemon_state (backend w)).1 with
     | inr snapshot =>
         daemonState (page (run respond Tick w).2) = Some snapshot
     | inl _ =>
         daemonState (page (run respond Tick w).2) = daemonState (page w)
     end
  /\ calls (run respond DismissError w).2 = calls w.
Proof using Type.
  clear toLocaleString.
  intros Hk. cbv zeta. split; [|split; [|split; [|split]]].
  - destruct a; simpl in Hk; inversion Hk; subst k; clear Hk;
      exec; rewrite <- ?app_assoc; eexists; (split; [reflexivity|]);
      repeat first [ apply List.Forall_nil
                   | apply List.Forall_cons; [unfold is_reload; auto|] ].
  - destruct a; simpl in Hk; inversion Hk; subst k; clear Hk;
      unfold daemon_commands; cbn [cmd]; set_solver.
  - unfold daemon_commands.
    repeat constructor;
      [exists Enable | exists Disable | exists Pause | exists Resume
      | exists Tick | exists (Retry EmptyString)]; reflexivity.
  - exec; reflexivity.
  - exec; reflexivity.
Qed.

(** The table of failed manifests has one row per entry of the state. *)
Lemma render_failed_rows (p : PageState) (s : DaemonState.t) :
  loading p = false ->
  daemonState p = Some s ->
  exists d, render toLocaleString p = DashboardView d
            /\ failed_rows d
               = failed_row toLocaleString (config p) (actionInProgress p)
                   <$> DaemonState.failedManifests s.
Proof using Type.
  intros Hl Hs. unfold render. rewrite Hl, Hs.
  eexists; split; reflexivity.
Qed.

(** C6.  Once the page has loaded, every failed manifest of the daemon
    state it holds has a row that shows its error message and its retry
    count (over the configured maximum), and a Retry button bound to
    that manifest's CID: clicking it sends [retry_failed_manifest] with
    that [manifestCid].  The button is disabled only while that very
    retry is running. *)
Theorem failed_manifest_exposed (p : PageState) (s : DaemonState.t)
    (m : FailedManifest.t) w :
  loading p = false ->
  daemonState p = Some s ->
  m ∈ DaemonState.failedManifests s ->
  exists d row,
    render toLocaleString p = DashboardView d
    /\ row ∈ failed_rows d
    /\ f_error row = FailedManifest.errorMessage m
    /\ f_retries row = [Num (FailedManifest.retryCount m); Text "/";
                        Num (max_retries_or_default (config p))]
    /\ onClick (f_action row) = Retry (FailedManifest.manifestCid m)
    /\ disabled (f_action row)
       = bool_decide (actionInProgress p
                      = Some ("retry-" +:+ FailedManifest.manifestCid m))
    /\ exists rest,
         calls (run respond (onClick (f_action row)) w).2
         = calls w
           ++ mkCall "retry_failed_manifest"
                [("manifestCid", FailedManifest.manifestCid m)] :: rest.
Proof using Type.
  intros Hl Hs Hm.
  destruct (render_failed_rows p s Hl Hs) as (d & Hd & Hrows).
  exists d, (failed_row toLocaleString (config p) (actionInProgress p) m).
  split; [exact Hd|].
  split; [rewrite Hrows; apply list_elem_of_fmap; eauto|].
  repeat split.
  cbn [failed_row f_action onClick].
  exec; rewrite <- ?app_assoc; eexists; reflexivity.
Qed.

(** The table of manifests in progress has one row per entry of the
    state's map. *)
Lemma render_in_progress_rows (p : PageState) (d : Dashboard) :
  render toLocaleString p = DashboardView d ->
  forall row, row ∈ in_progress_rows d ->
    exists manifest, row = in_progress_row toLocaleString manifest.
Proof using Type.
  unfold render. destruct (loading p); [discriminate|].
  intros [= <-] row Hrow. cbn [in_progress_rows] in Hrow.
  apply list_elem_of_fmap in Hrow as (m & -> & _). eauto.
Qed.

(** C8.  Every progress bar the dashboard renders has a width that was
    computed without dividing by zero: the quotient
    [filesDownloaded / totalFiles] is taken only when [totalFiles > 0],
    and the width is 0 otherwise. *)
Theorem progress_width_never_divides_by_zero (p : PageState)
    (d : Dashboard) (row : InProgressRow) :
  render toLocaleString p = DashboardView d ->
  row ∈ in_progress_rows d ->
  exists manifest,
    row = in_progress_row toLocaleString manifest
    /\ ip_width row
       = Some (if 0 <? InProgressManifest.totalFiles manifest
               then (inject_Z (InProgressManifest.filesDownloaded manifest)
                     / inject_Z (InProgressManifest.totalFiles manifest)
                     * inject_Z 100)%Q
               else inject_Z 0)
    /\ (if 0 <? InProgressManifest.totalFiles manifest
        then js_div (InProgressManifest.filesDownloaded manifest)
                    (InProgressManifest.totalFiles manifest) <> None
        else ip_width row = Some (inject_Z 0)).
Proof using Type.
  intros Hd Hrow.
  destruct (render_in_progress_rows p d Hd row Hrow) as (m & ->).
  exists m. split; [reflexivity|].
  cbn [in_progress_row ip_width]. unfold progress_width, js_div.
  destruct (0 <? InProgressManifest.totalFiles m) eqn:Hpos; [|auto].
  apply Z.ltb_lt in Hpos.
  destruct (InProgressManifest.totalFiles m =? 0) eqn:Hz;
    [apply Z.eqb_eq in Hz; lia|].
  split; [reflexivity | discriminate].
Qed.

End PageFacts.

(** ** The daemon core *)

Section DaemonFacts.

Import Daemon.

Variable describe : option FetchError -> string.
Variable initial_status : string.
Variable toLocaleString : string -> string.

Local Open Scope list_scope.

Implicit Types (s : DaemonState.t) (peer : SourcePeerConfig.t)
  (ptr : ManifestPointer.t) (log : list Event).

Local Abbreviation poll_peer := (Daemon.poll_peer describe initial_status).
Local Abbreviation poll_peers := (Daemon.poll_peers describe initial_status).
Local Abbreviation poll_cycle := (Daemon.poll_cycle describe initial_status).

(** *** Values of a map *)

Lemma elem_of_Object_values {T} (o : gmap string T) (x : T) :
  x ∈ Object_values o <-> exists k, o !! k = Some x.
Proof.
  unfold Object_values. rewrite list_elem_of_fmap. split.
  - intros ([k y] & -> & H). exists k. now apply elem_of_map_to_list.
  - intros (k & H). exists (k, x). split; [reflexivity|].
    now apply elem_of_map_to_list.
Qed.

Lemma existsb_false_mono {T} (f : T -> bool) (l l' : list T) :
  (forall x, x ∈ l' -> x ∈ l) -> existsb f l = false -> existsb f l' = false.
Proof.
  intros Hsub Hl. destruct (existsb f l') eqn:E; [|reflexivity].
  apply existsb_exists in E as (x & Hin & Hx).
  apply list_elem_of_In, Hsub, list_elem_of_In in Hin.
  assert (existsb f l = true) by (apply existsb_exists; eauto).
  congruence.
Qed.

(** *** The sequence-number comparison *)

(** The last processed sequence of a peer is the sequence number of one
    of its processed manifests and bounds all of them. *)
Lemma lastProcessedSequence_max s peerId last :
  lastProcessedSequence s peerId = Some last ->
  (exists k pm, DaemonState.processedManifests s !! k = Some pm
                /\ ProcessedManifest.sourcePeerId pm = peerId
                /\ ProcessedManifest.sequenceNumber pm = last)
  /\ (forall k pm, DaemonState.processedManifests s !! k = Some pm ->
                   ProcessedManifest.sourcePeerId pm = peerId ->
                   ProcessedManifest.sequenceNumber pm <= last).
Proof.
  unfold lastProcessedSequence.
  assert (Hval : forall pm, pm ∈ Object_values (DaemonState.processedManifests s)
                 <-> exists k, DaemonState.processedManifests s !! k = Some pm)
    by (intros; apply elem_of_Object_values).
  revert Hval last.
  generalize (Object_values (DaemonState.processedManifests s)) as l.
  generalize (DaemonState.processedManifests s) as m.
  intros m l Hval.
  assert (Hgen : forall last,
    foldr (fun pm acc =>
             if bool_decide (ProcessedManifest.sourcePeerId pm = peerId)
             then Some (match acc with
                        | Some a => Z.max a (ProcessedManifest.sequenceNumber pm)
                        | None => ProcessedManifest.sequenceNumber pm
                        end)
             else acc) None l = Some last ->
    (exists pm, pm ∈ l /\ ProcessedManifest.sourcePeerId pm = peerId
                /\ ProcessedManifest.sequenceNumber pm = last)
    /\ (forall pm, pm ∈ l -> ProcessedManifest.sourcePeerId pm = peerId ->
                   ProcessedManifest.sequenceNumber pm <= last)).
  { clear Hval. induction l as [|x l IH]; intros last; simpl.
    - discriminate.
    - case_bool_decide as Hp.
      + destruct (foldr _ None l) as [a|] eqn:Ef; intros [= <-].
        * destruct (IH a eq_refl) as ((pm & Hin & Hpm & Hseq) & Hle).
          split.
          -- destruct (Z.max_spec a (ProcessedManifest.sequenceNumber x))
               as [[_ ->]|[_ ->]].
             ++ exists x. split; [left|]; auto.
             ++ exists pm. split; [right|]; auto.
          -- intros pm' [->|Hin']%elem_of_cons Hp'; [lia|].
             specialize (Hle pm' Hin' Hp'). lia.
        * split.
          -- exists x. split; [left|]; auto.
          -- intros pm' [->|Hin']%elem_of_cons Hp'; [lia|].
             exfalso. clear IH. induction l as [|y l IHl]; [inversion Hin'|].
             simpl in Ef. apply elem_of_cons in Hin' as [->|Hin'].
             ++ rewrite bool_decide_true in Ef by assumption. discriminate.
             ++ case_bool_decide; [discriminate|]. auto.
      + intros Hf. destruct (IH last Hf) as ((pm & Hin & Hpm & Hseq) & Hle).
        split.
        * exists pm. split; [right|]; auto.
        * intros pm' [->|Hin']%elem_of_cons Hp'; [contradiction|]. auto. }
  intros last Hf. destruct (Hgen last Hf) as ((pm & Hin & Hpm & Hseq) & Hle).
  split.
  - apply Hval in Hin as (k & Hk). eauto.
  - intros k pm' Hk Hp'. apply Hle; [apply Hval; eauto | assumption].
Qed.

(** C3.  A poll that discovers a sequence number not above the peer's
    last processed one is a no-op: the state after the poll is the state
    before it with [lastPollTime] stamped, so no manifest in progress is
    created, and no manifest is fetched. *)
Theorem repoll_is_noop (max_retries : Z) (now : string) peer ptr
    (fetchManifest : string -> nat -> FetchError + Manifest.t) s (last : Z) :
  lastProcessedSequence s (SourcePeerConfig.peerId peer) = Some last ->
  ManifestPointer.sequenceNumber ptr <= last ->
  let out := poll_peer max_retries now peer (inr ptr) fetchManifest s in
  out.1 = DaemonState.mk
            (DaemonState.processedManifests s)
            (DaemonState.inProgressManifests s)
            (DaemonState.failedManifests s)
            now
            (DaemonState.stats s)
  /\ DaemonState.inProgressManifests out.1 = DaemonState.inProgressManifests s
  /\ manifest_fetches (ManifestPointer.manifestCid ptr) out.2 = 0%nat.
Proof.
  intros Hlast Hle. unfold Daemon.poll_peer. rewrite Hlast.
  cbn [is_newer].
  destruct (last <? ManifestPointer.sequenceNumber ptr) eqn:E;
    [apply Z.ltb_lt in E; lia|].
  cbn. auto.
Qed.

(** *** Bounded retries *)

Lemma fetch_with_retry_all_fail (fetch : nat -> FetchError + Manifest.t)
    (n : nat) :
  (forall i, exists e, fetch i = inl e) ->
  forall a last, exists last',
    fetch_with_retry fetch n a last = (Exhausted last', (a + n)%nat).
Proof.
  intros Hfail. induction n as [|n IH]; intros a last; simpl.
  - exists last. f_equal. lia.
  - destruct (Hfail a) as (e & ->).
    destruct (IH (S a) (Some e)) as (last' & ->).
    exists last'. f_equal. lia.
Qed.

Lemma fetch_with_retry_attempts (fetch : nat -> FetchError + Manifest.t)
    (n a : nat) last :
  (a + Nat.min 1 n <= (fetch_with_retry fetch n a last).2 <= a + n)%nat.
Proof.
  revert a last. induction n as [|n IH]; intros a last; simpl; [lia|].
  destruct (fetch a) as [e|m]; simpl; [|lia].
  specialize (IH (S a) (Some e)). lia.
Qed.

Lemma manifest_fetches_attempts cid peerId (n : nat) :
  manifest_fetches cid (Discovery peerId :: replicate n (ManifestFetch cid))
  = n.
Proof.
  unfold manifest_fetches. cbn [List.filter is_manifest_fetch].
  induction n as [|n IH]; [reflexivity|].
  cbn [replicate List.filter is_manifest_fetch].
  rewrite bool_decide_true by reflexivity. simpl. now rewrite IH.
Qed.

(** A poll never fetches a manifest more than [max_retries] times. *)
Lemma poll_peer_attempts (max_retries : Z) now peer ptr fetchManifest s :
  (manifest_fetches (ManifestPointer.manifestCid ptr)
     (poll_peer max_retries now peer (inr ptr) fetchManifest s).2
   <= Z.to_nat max_retries)%nat.
Proof.
  unfold Daemon.poll_peer.
  destruct (_ && _ && _); [|cbn; unfold manifest_fetches; simpl; lia].
  pose proof (fetch_with_retry_attempts
                (fetchManifest (ManifestPointer.manifestCid ptr))
                (Z.to_nat max_retries) 0 None) as Hb.
  destruct (fetch_with_retry _ _ _ _) as [[m|last] n]; cbn [fst snd] in *;
    rewrite manifest_fetches_attempts; lia.
Qed.

Lemma is_failed_after_fail now peerId cid last n s :
  is_failed (fail describe now peerId cid last n s) cid = true.
Proof.
  unfold is_failed, fail. cbn [DaemonState.failedManifests].
  rewrite existsb_app. apply orb_true_iff. right. simpl.
  rewrite bool_decide_true by reflexivity. reflexivity.
Qed.

Lemma is_failed_after_retry cid s :
  is_failed (retry_failed_manifest cid s) cid = false.
Proof.
  unfold is_failed, retry_failed_manifest. cbn [DaemonState.failedManifests].
  induction (DaemonState.failedManifests s) as [|fm l IH]; [reflexivity|].
  simpl. case_bool_decide as Hc; simpl; [exact IH|].
  rewrite bool_decide_false by assumption. exact IH.
Qed.

Lemma in_progress_for_delete s s' cid peerId n :
  DaemonState.inProgressManifests s'
  = delete cid (DaemonState.inProgressManifests s) ->
  in_progress_for s peerId n = false ->
  in_progress_for s' peerId n = false.
Proof.
  intros Hd. unfold in_progress_for. rewrite Hd.
  apply existsb_false_mono. intros x Hx.
  apply elem_of_Object_values in Hx as (k & Hk).
  apply lookup_delete_Some in Hk as [_ Hk].
  apply elem_of_Object_values. eauto.
Qed.

(** A manifest listed as failed is skipped by every poll. *)
Lemma poll_peer_skips_failed (max_retries : Z) now peer ptr fetchManifest s :
  is_failed s (ManifestPointer.manifestCid ptr) = true ->
  poll_peer max_retries now peer (inr ptr) fetchManifest s
  = (set_lastPollTime now s, [Discovery (SourcePeerConfig.peerId peer)]).
Proof.
  intros Hf. unfold Daemon.poll_peer. rewrite Hf.
  rewrite andb_false_r. reflexivity.
Qed.

(** *** Runs of the daemon *)

Local Abbreviation perform_op := (Daemon.perform_op describe initial_status).
Local Abbreviation perform := (Daemon.perform describe initial_status).

Lemma manifest_fetches_app cid log log' :
  manifest_fetches cid (log ++ log')
  = (manifest_fetches cid log + manifest_fetches cid log')%nat.
Proof.
  unfold manifest_fetches. now rewrite List.filter_app, length_app.
Qed.

Lemma manifest_fetches_none cid log :
  Forall (fun e => is_manifest_fetch cid e = false) log ->
  manifest_fetches cid log = 0%nat.
Proof.
  unfold manifest_fetches. induction 1 as [|e log He _ IH]; [reflexivity|].
  simpl. now rewrite He.
Qed.

Lemma manifest_fetches_other cid other peerId (n : nat) :
  other <> cid ->
  manifest_fetches cid (Discovery peerId :: replicate n (ManifestFetch other))
  = 0%nat.
Proof.
  intros Hne. apply manifest_fetches_none. constructor; [reflexivity|].
  apply Forall_replicate. simpl. now apply bool_decide_eq_false.
Qed.

(** The three ways a poll of one peer ends: the peer is skipped, the
    manifest is accepted, or its fetch is exhausted.  The last two
    happen only for a manifest that is not listed as failed. *)
Lemma poll_peer_cases (max_retries : Z) now peer discovered fetchManifest s :
  let peerId := SourcePeerConfig.peerId peer in
  let out := poll_peer max_retries now peer discovered fetchManifest s in
  out = (set_lastPollTime now s, [Discovery peerId])
  \/ (exists ptr m n,
        is_failed s (ManifestPointer.manifestCid ptr) = false
        /\ out = (accept initial_status now peerId ptr m
                    (set_lastPollTime now s),
                  Discovery peerId
                  :: replicate n
                       (ManifestFetch (ManifestPointer.manifestCid ptr))))
  \/ (exists ptr last n,
        is_failed s (ManifestPointer.manifestCid ptr) = false
        /\ out = (fail describe now peerId
                    (ManifestPointer.manifestCid ptr) last n
                    (set_lastPollTime now s),
                  Discovery peerId
                  :: replicate n
                       (ManifestFetch (ManifestPointer.manifestCid ptr)))).
Proof.
  cbv zeta. unfold Daemon.poll_peer.
  destruct discovered as [e|ptr]; [left; reflexivity|].
  destruct (is_failed s (ManifestPointer.manifestCid ptr)) eqn:Hf.
  { rewrite andb_false_r. left; reflexivity. }
  destruct (_ && _ && _); [|left; reflexivity].
  destruct (fetch_with_retry _ _ _ _) as [[m|last] n]; right; [left|right];
    eauto 6.
Qed.

Lemma is_failed_elem s (fm : FailedManifest.t) :
  fm ∈ DaemonState.failedManifests s ->
  is_failed s (FailedManifest.manifestCid fm) = true.
Proof.
  intros Hin. unfold is_failed. apply existsb_exists. exists fm.
  split; [now apply list_elem_of_In | now apply bool_decide_eq_true].
Qed.

Lemma process_manifest_log cid cfg now fetchFile ip m st :
  manifest_fetches cid (process_manifest cfg now fetchFile ip m st).2
  = 0%nat.
Proof.
  destruct st as [s files]. unfold process_manifest. cbn [snd].
  apply manifest_fetches_none, Forall_app. split.
  - apply Forall_concat, Forall_fmap, Forall_forall. intros r _.
    apply Forall_replicate. reflexivity.
  - apply Forall_fmap, Forall_forall. intros e _. reflexivity.
Qed.

(** A failed manifest stays listed, and is not fetched, through every
    operation but its own retry. *)
Lemma failed_survives_op (fm : FailedManifest.t) (op : Op)
    (st : DaemonState.t * gset string) :
  fm ∈ DaemonState.failedManifests st.1 ->
  retries (FailedManifest.manifestCid fm) op = false ->
  fm ∈ DaemonState.failedManifests (perform_op op st).1.1
  /\ manifest_fetches (FailedManifest.manifestCid fm) (perform_op op st).2
     = 0%nat.
Proof.
  intros Hin Hop. pose proof (is_failed_elem _ _ Hin) as Hf.
  destruct op as [mr now peer d f|cfg now ff c m|c]; cbn [Daemon.perform_op].
  - destruct (poll_peer_cases mr now peer d f st.1)
      as [H|[(ptr & m & n & Hnf & H)|(ptr & last & n & Hnf & H)]];
      rewrite H; cbn [fst snd].
    + split; [exact Hin | reflexivity].
    + split; [exact Hin|].
      apply manifest_fetches_other. intros Heq. rewrite Heq in Hnf.
      congruence.
    + split; [unfold fail; cbn; apply elem_of_app; now left|].
      apply manifest_fetches_other. intros Heq. rewrite Heq in Hnf.
      congruence.
  - destruct (DaemonState.inProgressManifests st.1 !! c) as [ip|];
      [|split; [exact Hin | reflexivity]].
    split; [|apply process_manifest_log].
    destruct st as [s files]. exact Hin.
  - split; [|reflexivity]. cbn [fst snd retry_failed_manifest
      DaemonState.failedManifests].
    apply list_elem_of_In, filter_In. split; [now apply list_elem_of_In|].
    simpl in Hop. apply bool_decide_eq_false in Hop.
    apply negb_true_iff, bool_decide_eq_false. congruence.
Qed.

Lemma failed_survives_run (fm : FailedManifest.t) (ops : list Op)
    (st : DaemonState.t * gset string) :
  Forall (fun op => retries (FailedManifest.manifestCid fm) op = false) ops ->
  fm ∈ DaemonState.failedManifests st.1 ->
  fm ∈ DaemonState.failedManifests (perform ops st).1.1
  /\ manifest_fetches (FailedManifest.manifestCid fm) (perform ops st).2
     = 0%nat.
Proof.
  intros Hops. revert st.
  induction Hops as [|op ops Hop _ IH]; intros st Hin;
    [split; [exact Hin | reflexivity]|].
  cbn [Daemon.perform].
  destruct (failed_survives_op fm op st Hin Hop) as [Hin1 Hlog1].
  destruct (perform_op op st) as [st1 log1]. cbn [fst snd] in *.
  destruct (IH st1 Hin1) as [Hin2 Hlog2].
  destruct (perform ops st1) as [st2 log2]. cbn [fst snd] in *.
  split; [exact Hin2|]. rewrite manifest_fetches_app. lia.
Qed.

(** C5.  A manifest whose fetch fails at every attempt is fetched
    exactly [max_retries] times and is then listed as a
    [FailedManifest] whose [retryCount] is that number of attempts; it
    is no longer in progress.  From then on, whatever the daemon does
    (polls of any peer with any pointer, completions, retries of other
    manifests), as long as there is no explicit retry of this manifest
    it stays listed and is never fetched again.  After an explicit
    [retry_failed_manifest] it is no longer listed and the next poll
    fetches it again. *)
Theorem retry_exhaustion (max_retries : Z) (now : string) peer ptr
    (fetchManifest : string -> nat -> FetchError + Manifest.t) s :
  0 <= max_retries ->
  (forall i, exists e,
     fetchManifest (ManifestPointer.manifestCid ptr) i = inl e) ->
  is_newer (ManifestPointer.sequenceNumber ptr)
    (lastProcessedSequence s (SourcePeerConfig.peerId peer)) = true ->
  in_progress_for s (SourcePeerConfig.peerId peer)
    (ManifestPointer.sequenceNumber ptr) = false ->
  is_failed s (ManifestPointer.manifestCid ptr) = false ->
  let cid := ManifestPointer.manifestCid ptr in
  let peerId := SourcePeerConfig.peerId peer in
  let out := poll_peer max_retries now peer (inr ptr) fetchManifest s in
  Z.of_nat (manifest_fetches cid out.2) = max_retries
  /\ (exists last,
        let entry :=
          FailedManifest.mk cid peerId now (describe last) max_retries in
        DaemonState.failedManifests out.1
        = DaemonState.failedManifests s ++ [entry]
        /\ forall (ops : list Op) (files : gset string),
             Forall (fun op => retries cid op = false) ops ->
             let later := perform ops (out.1, files) in
             entry ∈ DaemonState.failedManifests later.1.1
             /\ is_failed later.1.1 cid = true
             /\ manifest_fetches cid later.2 = 0%nat)
  /\ DaemonState.inProgressManifests out.1 !! cid = None
  /\ (forall now' fetch',
        poll_peer max_retries now' peer (inr ptr) fetch' out.1
        = (set_lastPollTime now' out.1, [Discovery peerId]))
  /\ is_failed (retry_failed_manifest cid out.1) cid = false
  /\ (forall now' fetch',
        (Nat.min 1 (Z.to_nat max_retries)
         <= manifest_fetches cid
              (poll_peer max_retries now' peer (inr ptr) fetch'
                 (retry_failed_manifest cid out.1)).2)%nat).
Proof.
  intros Hpos Hfail Hnew Hip Hnf cid peerId.
  destruct (fetch_with_retry_all_fail _ (Z.to_nat max_retries) Hfail 0%nat None)
    as (last & Hrun).
  assert (Hout : poll_peer max_retries now peer (inr ptr) fetchManifest s
                 = (fail describe now peerId cid last (Z.to_nat max_retries)
                      (set_lastPollTime now s),
                    Discovery peerId
                    :: replicate (Z.to_nat max_retries) (ManifestFetch cid))).
  { subst cid peerId. unfold Daemon.poll_peer. cbv zeta.
    rewrite Hnew, Hip, Hnf. cbn [andb negb]. rewrite Hrun. reflexivity. }
  cbv zeta. rewrite Hout. cbn [fst snd].
  split; [rewrite manifest_fetches_attempts; lia|].
  split.
  { exists last.
    assert (Hlist : DaemonState.failedManifests
                      (fail describe now peerId cid last
                         (Z.to_nat max_retries) (set_lastPollTime now s))
                    = DaemonState.failedManifests s
                      ++ [FailedManifest.mk cid peerId now (describe last)
                            max_retries]).
    { unfold fail. cbn. now rewrite Z2Nat.id by assumption. }
    split; [exact Hlist|].
    intros ops files Hops.
    set (entry := FailedManifest.mk cid peerId now (describe last)
                    max_retries) in *.
    destruct (failed_survives_run entry ops
                (fail describe now peerId cid last (Z.to_nat max_retries)
                   (set_lastPollTime now s), files)) as [Hin Hlog].
    - exact Hops.
    - cbn [fst]. rewrite Hlist. apply elem_of_app. right.
      apply list_elem_of_here.
    - split; [exact Hin|]. split; [|exact Hlog].
      exact (is_failed_elem _ entry Hin). }
  split.
  { unfold fail. cbn. apply lookup_delete_eq. }
  split.
  { intros now' fetch'. apply poll_peer_skips_failed, is_failed_after_fail. }
  split; [apply is_failed_after_retry|].
  intros now' fetch'.
  set (s1 := retry_failed_manifest cid _).
  assert (H1 : lastProcessedSequence s1 (SourcePeerConfig.peerId peer)
               = lastProcessedSequence s (SourcePeerConfig.peerId peer))
    by reflexivity.
  assert (H2 : in_progress_for s1 (SourcePeerConfig.peerId peer)
                 (ManifestPointer.sequenceNumber ptr) = false).
  { apply (in_progress_for_delete s s1 cid); [reflexivity | exact Hip]. }
  assert (H3 : is_failed s1 (ManifestPointer.manifestCid ptr) = false)
    by apply is_failed_after_retry.
  subst cid peerId. unfold Daemon.poll_peer. cbv zeta.
  rewrite H1, Hnew, H2, H3. cbn [andb negb].
  pose proof (fetch_with_retry_attempts
                (fetch' (ManifestPointer.manifestCid ptr))
                (Z.to_nat max_retries) 0 None) as Hb.
  destruct (fetch_with_retry (fetch' (ManifestPointer.manifestCid ptr))
              (Z.to_nat max_retries) 0 None) as [[m|last'] n];
    cbn [fst snd] in *; rewrite manifest_fetches_attempts; lia.
Qed.

(** *** Completion records *)


(** *** Records filed under their CID *)

Lemma keyed_empty lastPollTime : keyed (Daemon.empty lastPollTime).
Proof.
  split; intros k x H; cbn in H; now rewrite lookup_empty in H.
Qed.

Lemma keyed_poll_peer (max_retries : Z) now peer discovered fetchManifest s :
  keyed s ->
  keyed (poll_peer max_retries now peer discovered fetchManifest s).1.
Proof.
  intros [Hp Hi].
  destruct (poll_peer_cases max_retries now peer discovered fetchManifest s)
    as [H|[(ptr & m & n & _ & H)|(ptr & last & n & _ & H)]];
    rewrite H; cbn [fst]; split; cbn; try assumption.
  - intros k ip [[<- <-]|[_ Hk]]%lookup_insert_Some; [reflexivity | eauto].
  - intros k ip [_ Hk]%lookup_delete_Some. eauto.
Qed.

Lemma keyed_process_manifest cfg now fetchFile ip m
    (st : DaemonState.t * gset string) :
  keyed st.1 -> keyed (process_manifest cfg now fetchFile ip m st).1.1.
Proof.
  destruct st as [s files]. intros [Hp Hi]. unfold process_manifest.
  split; cbn.
  - intros k pm [[<- <-]|[_ Hk]]%lookup_insert_Some; [reflexivity | eauto].
  - intros k ip' [_ Hk]%lookup_delete_Some. eauto.
Qed.

Lemma keyed_perform_op (op : Op) (st : DaemonState.t * gset string) :
  keyed st.1 -> keyed (perform_op op st).1.1.
Proof.
  intros Hk. destruct op as [mr now peer d f|cfg now ff c m|c];
    cbn [Daemon.perform_op].
  - pose proof (keyed_poll_peer mr now peer d f st.1 Hk) as H.
    destruct (poll_peer mr now peer d f st.1). exact H.
  - destruct (DaemonState.inProgressManifests st.1 !! c);
      [now apply keyed_process_manifest | exact Hk].
  - exact Hk.
Qed.

(** Every state of a run is keyed when the first one is. *)
Lemma keyed_perform (ops : list Op) (st : DaemonState.t * gset string) :
  keyed st.1 -> keyed (perform ops st).1.1.
Proof.
  revert st. induction ops as [|op ops IH]; intros st Hk; [exact Hk|].
  cbn [Daemon.perform].
  pose proof (keyed_perform_op op st Hk) as H1.
  destruct (perform_op op st) as [st1 log1]. cbn [fst] in H1.
  specialize (IH st1 H1).
  destruct (perform ops st1) as [st2 log2]. exact IH.
Qed.




(** *** The snapshot on the wire *)

(** C2.  After any run of the daemon from the empty state, the answer
    of the state query is a JSON object with exactly the five root
    members processedManifests, inProgressManifests, failedManifests,
    lastPollTime and stats: the first two are objects whose every
    member is a ProcessedManifest (an InProgressManifest) of the state
    filed under its own manifestCid, the third is an array of
    FailedManifest, the fourth a string and the last the DaemonStats. *)
Theorem daemon_state_snapshot_shape (ops : list Op) (lastPollTime : string) :
  let s := (perform ops (Daemon.empty lastPollTime, ∅)).1.1 in
  keys (getState s)
  = ["processedManifests"; "inProgressManifests"; "failedManifests";
     "lastPollTime"; "stats"]
  /\ (exists members,
        member "processedManifests" (getState s) = Some (JObject members)
        /\ length members = size (DaemonState.processedManifests s)
        /\ Forall (fun kv =>
                     exists pm,
                       DaemonState.processedManifests s !! kv.1 = Some pm
                       /\ kv.2 = ProcessedManifest_json pm
                       /\ member "manifestCid" kv.2 = Some (JString kv.1))
             members)
  /\ (exists members,
        member "inProgressManifests" (getState s) = Some (JObject members)
        /\ length members = size (DaemonState.inProgressManifests s)
        /\ Forall (fun kv =>
                     exists ip,
                       DaemonState.inProgressManifests s !! kv.1 = Some ip
                       /\ kv.2 = InProgressManifest_json ip
                       /\ member "manifestCid" kv.2 = Some (JString kv.1))
             members)
  /\ member "failedManifests" (getState s)
     = Some (JArray (FailedManifest_json <$> DaemonState.failedManifests s))
  /\ member "lastPollTime" (getState s)
     = Some (JString (DaemonState.lastPollTime s))
  /\ member "stats" (getState s)
     = Some (DaemonStats_json (DaemonState.stats s)).
Proof.
  cbv zeta.
  pose proof (keyed_perform ops (Daemon.empty lastPollTime, ∅)
                (keyed_empty lastPollTime)) as [Hp Hi].
  set (s := (perform ops (Daemon.empty lastPollTime, ∅)).1.1) in *.
  split; [reflexivity|].
  split.
  { eexists. split; [reflexivity|]. split.
    - now rewrite length_fmap, length_map_to_list.
    - apply Forall_fmap, Forall_forall. intros [k pm] Hin.
      apply elem_of_map_to_list in Hin. exists pm. cbn [fst snd compose].
      split; [exact Hin|]. split; [reflexivity|].
      now rewrite <- (Hp k pm Hin). }
  split.
  { eexists. split; [reflexivity|]. split.
    - now rewrite length_fmap, length_map_to_list.
    - apply Forall_fmap, Forall_forall. intros [k ip] Hin.
      apply elem_of_map_to_list in Hin. exists ip. cbn [fst snd compose].
      split; [exact Hin|]. split; [reflexivity|].
      now rewrite <- (Hi k ip Hin). }
  repeat split.
Qed.

(** *** The configuration *)

Lemma discoveries_app log log' :
  discoveries (log ++ log') = discoveries log ++ discoveries log'.
Proof. unfold discoveries. apply omap_app. Qed.

Lemma discoveries_poll_peer (max_retries : Z) now peer discovered
    fetchManifest s :
  discoveries (poll_peer max_retries now peer discovered fetchManifest s).2
  = [SourcePeerConfig.peerId peer].
Proof.
  assert (Hrep : forall n cid,
            discoveries (replicate n (ManifestFetch cid)) = [])
    by (intros n cid; induction n; simpl; auto).
  unfold Daemon.poll_peer. destruct discovered as [e|ptr]; [reflexivity|].
  destruct (_ && _ && _); [|reflexivity].
  destruct (fetch_with_retry _ _ _ _) as [[m|last] n]; cbn [snd];
    change (discoveries (?x :: ?l)) with (SourcePeerConfig.peerId peer
                                          :: discoveries l);
    now rewrite Hrep.
Qed.

(** A poll cycle asks every configured peer once, in order. *)
Lemma discoveries_poll_peers (max_retries : Z) now discover fetchManifest
    (peers : list SourcePeerConfig.t) s :
  discoveries (poll_peers max_retries now discover fetchManifest peers s).2
  = SourcePeerConfig.peerId <$> peers.
Proof.
  revert s. induction peers as [|peer rest IH]; intros s; [reflexivity|].
  cbn [Daemon.poll_peers].
  pose proof (discoveries_poll_peer max_retries now peer (discover peer)
                fetchManifest s) as H1.
  destruct (poll_peer max_retries now peer (discover peer) fetchManifest s)
    as [s1 log1].
  specialize (IH s1).
  destruct (poll_peers max_retries now discover fetchManifest rest s1)
    as [s2 log2].
  cbn [snd] in *. rewrite discoveries_app, H1, IH. reflexivity.
Qed.

(** C7.  The configuration of the backup daemon carries
    [poll_interval_secs], [max_concurrent_downloads], [max_retries] and
    [auto_delete_tombstones], which the dashboard shows once loaded, and
    the list of source peers: an enabled, running daemon asks exactly
    the configured peers, fetches a manifest at most [max_retries]
    times per poll, and deletes nothing on its own when
    [auto_delete_tombstones] is off. *)
Theorem configuration_consumed (c : AppConfig.t)
    (peers : list SourcePeerConfig.t) (p : PageState) :
  loading p = false ->
  config p = Some c ->
  let settings := AppConfig.backup_server c in
  let cfg := Config.mk settings peers in
  (exists d,
     render toLocaleString p = DashboardView d
     /\ config_info d
        = Some (mkConfigInfo
                  [Num (BackupServerConfig.poll_interval_secs settings);
                   Text "s"]
                  [Num (BackupServerConfig.max_concurrent_downloads settings)]
                  [Num (BackupServerConfig.max_retries settings)]
                  [Text (if BackupServerConfig.auto_delete_tombstones settings
                         then "Yes" else "No")]))
  /\ Config.source_peers cfg = peers
  /\ (forall now discover fetchManifest s,
        discoveries (poll_cycle cfg false now discover fetchManifest s).2
        = if BackupServerConfig.enabled settings
          then SourcePeerConfig.peerId <$> peers
          else [])
  /\ (forall now peer ptr fetchManifest s,
        (manifest_fetches (ManifestPointer.manifestCid ptr)
           (poll_peer (BackupServerConfig.max_retries settings) now peer
              (inr ptr) fetchManifest s).2
         <= Z.to_nat (BackupServerConfig.max_retries settings))%nat)
  /\ (forall now fetchFile ip m s files,
        if BackupServerConfig.auto_delete_tombstones settings then True
        else exists pm,
          DaemonState.processedManifests
            (process_manifest cfg now fetchFile ip m (s, files)).1.1
          !! InProgressManifest.manifestCid ip = Some pm
          /\ ProcessedManifest.deletedCount pm = 0
          /\ files ⊆ (process_manifest cfg now fetchFile ip m (s, files)).1.2).
Proof.
  intros Hl Hc. cbv zeta.
  split.
  { unfold render. rewrite Hl, Hc. eexists. split; reflexivity. }
  split; [reflexivity|].
  split.
  { intros. unfold Daemon.poll_cycle. cbn [Config.backup_server negb].
    rewrite andb_true_r.
    destruct (BackupServerConfig.enabled _); [|reflexivity].
    apply discoveries_poll_peers. }
  split; [intros; apply poll_peer_attempts|].
  intros now fetchFile ip m s files.
  destruct (BackupServerConfig.auto_delete_tombstones _) eqn:Hauto; [exact I|].
  unfold process_manifest.
  cbn [fst snd Config.backup_server DaemonState.processedManifests].
  rewrite Hauto. eexists. split; [apply lookup_insert_eq|].
  split; [reflexivity|]. cbn. set_solver.
Qed.

End DaemonFacts.

(** ** The theorems at the sample inputs *)

Local Open Scope list_scope.


(** Retrying the sample failed manifest sends its CID, then reloads. *)
Lemma control_surface_commands_witness :
  named_command (Retry "zDvZRwzmAaBbCcDdEeFfGgHhIiJjKk")
  = Some (mkCall "retry_failed_manifest"
            [("manifestCid", "zDvZRwzmAaBbCcDdEeFfGgHhIiJjKk")])
  /\ exists rest,
       calls (run Sample.respond (Retry "zDvZRwzmAaBbCcDdEeFfGgHhIiJjKk")
                Sample.world).2
       = mkCall "retry_failed_manifest"
           [("manifestCid", "zDvZRwzmAaBbCcDdEeFfGgHhIiJjKk")] :: rest
       /\ Forall is_reload rest.
Proof.
  split; [reflexivity|].
  exact (proj1 (control_surface_commands Sample.respond
                  (Retry "zDvZRwzmAaBbCcDdEeFfGgHhIiJjKk") _ Sample.world
                  eq_refl)).
Defined.

Lemma failed_manifest_exposed_witness :
  loading Sample.loaded_page = false
  /\ daemonState Sample.loaded_page = Some Sample.state
  /\ Sample.failed ∈ DaemonState.failedManifests Sample.state
  /\ exists d row,
       render Sample.toLocaleString Sample.loaded_page = DashboardView d
       /\ row ∈ failed_rows d
       /\ f_error row = "manifest fetch timed out"
       /\ f_retries row = [Num 3; Text "/"; Num 3]
       /\ onClick (f_action row) = Retry "zDvZRwzmAaBbCcDdEeFfGgHhIiJjKk".
Proof.
  assert (Hin : Sample.failed ∈ DaemonState.failedManifests Sample.state)
    by (apply list_elem_of_here).
  split; [reflexivity|]. split; [reflexivity|]. split; [exact Hin|].
  destruct (failed_manifest_exposed Sample.respond Sample.toLocaleString
              Sample.loaded_page Sample.state Sample.failed Sample.world
              eq_refl eq_refl Hin)
    as (d & row & Hd & Hrow & He & Hr & Hc & _).
  exists d, row. repeat split; assumption.
Defined.

Lemma progress_width_never_divides_by_zero_witness :
  exists d,
    render Sample.toLocaleString Sample.loaded_page = DashboardView d
    /\ in_progress_row Sample.toLocaleString Sample.idle ∈ in_progress_rows d
    /\ ip_width (in_progress_row Sample.toLocaleString Sample.idle)
       = Some (inject_Z 0).
Proof.
  eexists. split; [unfold render; cbn [loading Sample.loaded_page]; reflexivity|].
  assert (Hin : in_progress_row Sample.toLocaleString Sample.idle
                ∈ in_progress_row Sample.toLocaleString
                    <$> Object_values
                          (DaemonState.inProgressManifests Sample.state)).
  { apply list_elem_of_fmap. exists Sample.idle. split; [reflexivity|].
    apply list_elem_of_In. vm_compute. auto. }
  split; [exact Hin|].
  destruct (progress_width_never_divides_by_zero Sample.toLocaleString
              Sample.loaded_page _ _ eq_refl Hin) as (m & Hm & _ & _).
  reflexivity.
Defined.

(** Peer "P1" has manifest 5 processed; polling its pointer at sequence 5
    again changes nothing but the poll time. *)
Lemma repoll_is_noop_witness :
  Daemon.lastProcessedSequence Sample.state "P1" = Some 5
  /\ 5 <= 5
  /\ (Daemon.poll_peer Sample.describe "downloading" 3 "2026-01-05T10:05:00Z"
        Sample.peer (inr (Sample.pointer 5)) Sample.always_found
        Sample.state).1
     = DaemonState.mk
         (DaemonState.processedManifests Sample.state)
         (DaemonState.inProgressManifests Sample.state)
         (DaemonState.failedManifests Sample.state)
         "2026-01-05T10:05:00Z"
         (DaemonState.stats Sample.state).
Proof.
  assert (H : Daemon.lastProcessedSequence Sample.state "P1" = Some 5)
    by (vm_compute; reflexivity).
  split; [exact H|]. split; [lia|].
  exact (proj1 (repoll_is_noop Sample.describe "downloading" 3
                  "2026-01-05T10:05:00Z" Sample.peer (Sample.pointer 5)
                  Sample.always_found Sample.state 5 H ltac:(simpl; lia))).
Defined.

(** Manifest 6 of peer "P1" times out at every attempt: three fetches,
    then a failed manifest with retry count 3; it is still listed and
    was not fetched after other work and two more polls of its
    pointer. *)
Lemma retry_exhaustion_witness :
  0 <= 3
  /\ (forall i : nat, exists e,
        Sample.always_timeout "zDvZRwzmManifestSeq6" i = inl e)
  /\ Daemon.is_newer 6 (Daemon.lastProcessedSequence Sample.state "P1") = true
  /\ Daemon.in_progress_for Sample.state "P1" 6 = false
  /\ Daemon.is_failed Sample.state "zDvZRwzmManifestSeq6" = false
  /\ Forall (fun op => Daemon.retries "zDvZRwzmManifestSeq6" op = false)
       Sample2.other_work
  /\ Z.of_nat
       (Daemon.manifest_fetches "zDvZRwzmManifestSeq6"
          (Daemon.poll_peer Sample.describe "downloading" 3
             "2026-01-05T10:05:00Z" Sample.peer (inr (Sample.pointer 6))
             Sample.always_timeout Sample.state).2) = 3
  /\ Daemon.manifest_fetches "zDvZRwzmManifestSeq6"
       (Daemon.perform Sample.describe "downloading" Sample2.other_work
          ((Daemon.poll_peer Sample.describe "downloading" 3
              "2026-01-05T10:05:00Z" Sample.peer (inr (Sample.pointer 6))
              Sample.always_timeout Sample.state).1, ∅)).2 = 0%nat.
Proof.
  assert (H0 : 0 <= 3) by lia.
  assert (H1 : forall i : nat, exists e,
             Sample.always_timeout "zDvZRwzmManifestSeq6" i = inl e)
    by (intros i; eexists; reflexivity).
  assert (H2 : Daemon.is_newer 6
                 (Daemon.lastProcessedSequence Sample.state "P1") = true)
    by (vm_compute; reflexivity).
  assert (H3 : Daemon.in_progress_for Sample.state "P1" 6 = false)
    by (vm_compute; reflexivity).
  assert (H4 : Daemon.is_failed Sample.state "zDvZRwzmManifestSeq6" = false)
    by (vm_compute; reflexivity).
  assert (H5 : Forall (fun op => Daemon.retries "zDvZRwzmManifestSeq6" op
                                 = false) Sample2.other_work)
    by (repeat constructor).
  repeat (split; [assumption|]).
  destruct (retry_exhaustion Sample.describe "downloading" 3
              "2026-01-05T10:05:00Z" Sample.peer (Sample.pointer 6)
              Sample.always_timeout Sample.state H0 H1 H2 H3 H4)
    as (Hn & (last & _ & Hlater) & _).
  split; [exact Hn|].
  exact (proj2 (proj2 (Hlater Sample2.other_work ∅ H5))).
Defined.



(** The snapshot after the first run of the scenario. *)
Lemma daemon_state_snapshot_shape_witness :
  keys (Daemon.getState
          (Daemon.perform Sample.describe "downloading" Sample2.first_run
             (Daemon.empty EmptyString, ∅)).1.1)
  = ["processedManifests"; "inProgressManifests"; "failedManifests";
     "lastPollTime"; "stats"]%string
  /\ member "processedManifests"
       (Daemon.getState
          (Daemon.perform Sample.describe "downloading" Sample2.first_run
             (Daemon.empty EmptyString, ∅)).1.1)
     = Some (JObject
               [("m1"%string,
                 Daemon.ProcessedManifest_json
                   (ProcessedManifest.mk "m1" "P1" 1 "folder-1" "t1"
                      1 100 0))]).
Proof.
  split.
  - exact (proj1 (daemon_state_snapshot_shape Sample.describe "downloading"
                    Sample2.first_run EmptyString)).
  - vm_compute. reflexivity.
Defined.

Lemma configuration_consumed_witness :
  loading Sample.loaded_page = false
  /\ config Sample.loaded_page = Some Sample.app_config
  /\ (exists d,
        render Sample.toLocaleString Sample.loaded_page = DashboardView d
        /\ config_info d
           = Some (mkConfigInfo [Num 30; Text "s"] [Num 3] [Num 3]
                     [Text "Yes"]))
  /\ forall now discover fetchManifest s,
       discoveries
         (Daemon.poll_cycle Sample.describe "downloading"
            Sample.daemon_config false now discover fetchManifest s).2
       = ["P1"].
Proof.
  split; [reflexivity|]. split; [reflexivity|].
  destruct (configuration_consumed Sample.describe "downloading"
              Sample.toLocaleString Sample.app_config [Sample.peer]
              Sample.loaded_page eq_refl eq_refl) as (H1 & _ & H3 & _).
  split; [exact H1 | exact H3].
Defined.

(** ** The model at work *)

(** Mounting the page against the sample backend loads the state and
    the configuration. *)
Example mount_loads :
  page (init Sample.respond
          (mkWorld initial_page (Sample.state, Sample.app_config) [] [])).2
  = Sample.loaded_page.
Proof. vm_compute. reflexivity. Qed.

(** A retry served by the sample backend: the command, then the state
    query; the failed manifest is gone from the state the page holds. *)
Example retry_served :
  let out := run Sample.respond (Retry "zDvZRwzmAaBbCcDdEeFfGgHhIiJjKk")
               Sample.world in
  calls out.2
  = [ mkCall "retry_failed_manifest"
        [("manifestCid", "zDvZRwzmAaBbCcDdEeFfGgHhIiJjKk")];
      mkCall "get_backup_daemon_state" [] ]
  /\ (DaemonState.failedManifests <$> daemonState (page out.2)) = Some []
  /\ error (page out.2) = None
  /\ actionInProgress (page out.2) = None.
Proof. vm_compute. auto. Qed.

(** A retry of a manifest that is not listed as failed: the backend
    rejects with a string, which becomes the error shown. *)
Example retry_rejected :
  let out := run Sample.respond (Retry "unknown") Sample.world in
  calls out.2 = [mkCall "retry_failed_manifest" [("manifestCid", "unknown")]]
  /\ error (page out.2) = Some "Manifest not found in failed list"
  /\ actionInProgress (page out.2) = None.
Proof. vm_compute. auto. Qed.

(** The scenario of the spec's section 8. *)
Example scenario_manifest1 :
  DaemonState.processedManifests Sample.after_manifest1.1 !! "m1"
  = Some (ProcessedManifest.mk "m1" "P1" 1 "folder-1" "t1" 1 100 0)
  /\ bool_decide ("a.txt" ∈ Sample.after_manifest1.2) = true.
Proof. vm_compute. auto. Qed.

Example scenario_manifest2 :
  DaemonState.processedManifests Sample.after_manifest2.1 !! "m2"
  = Some (ProcessedManifest.mk "m2" "P1" 2 "folder-1" "t3" 0 0 1)
  /\ bool_decide ("a.txt" ∈ Sample.after_manifest2.2) = false
  /\ DaemonStats.totalFilesDeleted (DaemonState.stats Sample.after_manifest2.1)
     = 1
  /\ DaemonState.inProgressManifests Sample.after_manifest2.1 = ∅.
Proof. vm_compute. auto. Qed.

(** * Further properties of the page *)

(** ** The string helpers *)

Local Open Scope string_scope.
Local Open Scope Z_scope.

Lemma Js_take_app (a b : string) : Js.take (String.length a) (a ++ b) = a.
Proof.
  induction a as [|c a IH]; [destruct b; reflexivity|].
  rewrite Js_app_cons. simpl. now rewrite IH.
Qed.

Lemma Js_drop_app (a b : string) : Js.drop (String.length a) (a ++ b) = b.
Proof.
  induction a as [|c a IH]; [destruct b; reflexivity|].
  rewrite Js_app_cons. simpl. exact IH.
Qed.

Lemma Js_take_all n s : (String.length s <= n)%nat -> Js.take n s = s.
Proof.
  revert s; induction n as [|n IH]; intros [|c s] H; simpl in *;
    try reflexivity; try lia.
  f_equal. apply IH. lia.
Qed.

(** [slice(0, k)] for any [k >= 0]: the first [k] code units, or the
    whole string when it is shorter. *)
Lemma Js_slice_prefix_any s k :
  0 <= k ->
  Js.slice s 0 (Some k) = Js.take (Z.to_nat k) s.
Proof.
  intros Hk. unfold Js.slice, Js.clamp.
  destruct (0 <? 0) eqn:E0; [discriminate|].
  destruct (k <? 0) eqn:Ek; [apply Z.ltb_lt in Ek; lia|].
  rewrite (Z.min_l 0) by (unfold Js.length; lia).
  rewrite Z.sub_0_r. change (Z.to_nat 0) with 0%nat. cbn [Js.drop].
  destruct (Z.min k (Js.length s) <=? 0) eqn:Ele.
  - apply Z.leb_le in Ele.
    destruct (Z.min_spec k (Js.length s)) as [[_ Hm]|[Hlt Hm]];
      rewrite Hm in Ele.
    + replace k with 0 by lia. now destruct s.
    + assert (String.length s = 0%nat) by (unfold Js.length in *; lia).
      destruct s; [now destruct (Z.to_nat k)|discriminate].
  - destruct (Z.min_spec k (Js.length s)) as [[_ ->]|[Hlt ->]];
      [reflexivity|].
    unfold Js.length in *. rewrite Nat2Z.id.
    rewrite !Js_take_all by lia. reflexivity.
Qed.

(** The two shapes of a shortened CID. *)
Lemma shortenCid_short_form cid :
  Js.length cid <= 16 -> shortenCid cid = cid.
Proof.
  intros H. unfold shortenCid.
  destruct (Js.length cid <=? 16) eqn:E; [reflexivity|].
  apply Z.leb_gt in E. lia.
Qed.

Lemma shortenCid_long_form cid :
  16 < Js.length cid ->
  shortenCid cid
  = Js.take 8 cid ++ "..." ++ Js.drop (String.length cid - 8) cid.
Proof.
  intros H. unfold shortenCid.
  destruct (Js.length cid <=? 16) eqn:E; [apply Z.leb_le in E; lia|].
  rewrite Js_slice_prefix by lia.
  change (Js.slice cid (-8) None) with (Js.slice cid (Z.opp 8) None).
  rewrite Js_slice_suffix by lia.
  replace (Z.to_nat (Js.length cid - 8)) with (String.length cid - 8)%nat
    by (unfold Js.length; lia).
  reflexivity.
Qed.

(** X1.  Shortening a CID twice is shortening it once: a shortened CID
    of 19 code units is cut at the same places again and comes out
    unchanged. *)
Theorem shortenCid_idempotent (cid : string) :
  shortenCid (shortenCid cid) = shortenCid cid.
Proof.
  destruct (Z.le_gt_cases (Js.length cid) 16) as [Hs|Hl].
  - rewrite (shortenCid_short_form cid Hs).
    exact (shortenCid_short_form cid Hs).
  - rewrite (shortenCid_long_form cid Hl).
    set (a := Js.take 8 cid).
    set (c := Js.drop (String.length cid - 8) cid).
    assert (Ha : String.length a = 8%nat)
      by (apply Js_length_take; unfold Js.length in Hl; lia).
    assert (Hc : String.length c = 8%nat)
      by (unfold c; rewrite Js_length_drop; unfold Js.length in Hl; lia).
    assert (Hlen : String.length (a ++ "..." ++ c) = 19%nat)
      by (rewrite !Js_length_app, Ha, Hc; reflexivity).
    rewrite shortenCid_long_form by (unfold Js.length; lia).
    rewrite Hlen. f_equal; [|f_equal].
    + rewrite <- Ha at 1. apply Js_take_app.
    + change (19 - 8)%nat with (8 + 3)%nat.
      replace (a ++ "..." ++ c) with ((a ++ "...") ++ c).
      * rewrite <- Ha at 1.
        change 3%nat with (String.length "...").
        rewrite <- Js_length_app. apply Js_drop_app.
      * clear. induction a as [|x a IH]; [reflexivity|].
        rewrite !Js_app_cons. now rewrite IH.
Qed.

(** X2.  [shortenPeerId] returns a peer identifier of at most 20 code
    units unchanged; a longer one becomes its first 12 code units
    followed by ["..."], 15 code units in all.  The result is never
    longer than its argument. *)
Theorem shortenPeerId_spec (peerId : string) :
  (if Js.length peerId <=? 20 then shortenPeerId peerId = peerId
   else shortenPeerId peerId = Js.take 12 peerId ++ "..."
        /\ Js.length (shortenPeerId peerId) = 15)
  /\ Js.length (shortenPeerId peerId) <= Js.length peerId.
Proof.
  unfold shortenPeerId.
  destruct (Js.length peerId <=? 20) eqn:E; [split; [reflexivity|lia]|].
  apply Z.leb_gt in E.
  rewrite Js_slice_prefix by lia.
  change (Z.to_nat 12) with 12%nat.
  assert (Hlen : Js.length (Js.take 12 peerId ++ "...") = 15).
  { unfold Js.length in *.
    rewrite Js_length_app, Js_length_take by lia. reflexivity. }
  repeat split; [exact Hlen | lia].
Qed.

(** X3.  Shortening a peer identifier twice is shortening it once. *)
Theorem shortenPeerId_idempotent (peerId : string) :
  shortenPeerId (shortenPeerId peerId) = shortenPeerId peerId.
Proof.
  assert (Hshort : forall s, Js.length s <= 20 -> shortenPeerId s = s).
  { intros s H. unfold shortenPeerId.
    destruct (Js.length s <=? 20) eqn:E; [reflexivity|].
    apply Z.leb_gt in E. lia. }
  apply Hshort.
  unfold shortenPeerId.
  destruct (Js.length peerId <=? 20) eqn:E; [now apply Z.leb_le|].
  apply Z.leb_gt in E.
  rewrite Js_slice_prefix by lia.
  unfold Js.length in *.
  rewrite Js_length_app, Js_length_take by lia. simpl. lia.
Qed.

(** ** Loading and the control handlers *)

Section PageMore.

Context {B : Type}.
Variable respond : forall T, Command T -> B -> (Thrown + T) * B.
Variable toLocaleString : string -> string.

Implicit Types (w : World B) (a : Action) (e : Thrown) (p : PageState).

Local Open Scope list_scope.

Ltac unfold_page :=
  unfold run, init, handleEnable, handleDisable, handlePause, handleResume,
    handleRetry, loadState, loadConfig, try_catch_finally, try_catch,
    invoke, setDaemonState, setConfig, setLoading, setError,
    setActionInProgress, console_error, update_page,
    mbind, M_bind, mret, M_ret in *.

Ltac answer :=
  match goal with
  | |- context [respond ?T ?c ?b] =>
      let r := fresh "r" in
      let b' := fresh "b" in
      let E := fresh "E" in
      destruct (respond T c b) as [[r|r] b'] eqn:E; cbn [fst snd] in *
  end.

Ltac exec := unfold_page; cbn; repeat (answer; cbn).

(** X4.  A configuration query that fails is silent: the page state is
    left exactly as it was (no error is shown), and the failure goes to
    the console only. *)
Theorem loadConfig_failure_is_silent w e (b' : B) :
  respond _ get_config (backend w) = (inl e, b') ->
  loadConfig respond w
  = (inr tt,
     mkWorld (page w) b' (calls w ++ [mkCall "get_config" []])
       (console w ++ [("Failed to load config:"%string, e)])).
Proof using Type.
  clear toLocaleString. intros E. unfold_page. cbn. rewrite E. reflexivity.
Qed.

(** X5.  The state query touches nothing but the snapshot and the
    error: the configuration, the loading flag, the action marker and
    the console are as before.  When it fails, the previous snapshot
    stays on display and the error becomes the thrown string, the
    [Error]'s message, or "Failed to load daemon state". *)
Theorem loadState_frame w :
  let out := loadState respond w in
  config (page out.2) = config (page w)
  /\ loading (page out.2) = loading (page w)
  /\ actionInProgress (page out.2) = actionInProgress (page w)
  /\ console out.2 = console w
  /\ match (respond _ get_backup_daemon_state (backend w)).1 with
     | inl e =>
         daemonState (page out.2) = daemonState (page w)
         /\ error (page out.2)
            = Some (display_message e "Failed to load daemon state")
     | inr snapshot =>
         daemonState (page out.2) = Some snapshot
         /\ error (page out.2) = None
     end.
Proof using Type.
  clear toLocaleString. exec; repeat split.
Qed.

(** X6.  When its command succeeds, a control handler sends exactly the
    command and then its reloads: enable and disable reload the
    configuration and then the state, pause, resume and retry reload
    the state only. *)
Theorem control_success_calls a (c : Command unit) w (b1 : B) :
  control_command a = Some c ->
  respond unit c (backend w) = (inr tt, b1) ->
  calls (run respond a w).2 = calls w ++ call_of c :: reloads a.
Proof using Type.
  clear toLocaleString. intros Hc E.
  destruct a; simpl in Hc; inversion Hc; subst c; clear Hc;
    unfold_page; cbn; rewrite E; cbn; repeat (answer; cbn);
    rewrite <- ?app_assoc; reflexivity.
Qed.

(** X7.  When its command succeeds, what a control handler leaves on
    display is decided by its final state query: the fresh snapshot and
    no error, or the previous snapshot and the error of the state
    query.  The handler's own fallback text is not used, and the action
    marker is cleared either way. *)
Theorem control_success_outcome a (c : Command unit) w (b1 : B) :
  control_command a = Some c ->
  respond unit c (backend w) = (inr tt, b1) ->
  let out := run respond a w in
  out.1 = inr tt
  /\ actionInProgress (page out.2) = None
  /\ match (respond _ get_backup_daemon_state
              (before_state_query respond a b1)).1 with
     | inr snapshot =>
         daemonState (page out.2) = Some snapshot
         /\ error (page out.2) = None
     | inl e =>
         daemonState (page out.2) = daemonState (page w)
         /\ error (page out.2)
            = Some (display_message e "Failed to load daemon state")
     end.
Proof using Type.
  clear toLocaleString. intros Hc E.
  destruct a; simpl in Hc; inversion Hc; subst c; clear Hc;
    unfold before_state_query;
    unfold_page; cbn; rewrite E; cbn; repeat (answer; cbn); repeat split.
Qed.

(** X8.  Only enable and disable can change the configuration the page
    holds: after a successful command it is the configuration the
    backend returned, or the previous one when that query failed.
    Pause, resume, retry and the timer tick never change it. *)
Theorem configuration_reload a w :
  let out := run respond a w in
  match a with
  | Enable | Disable =>
      forall (c : Command unit) (b1 : B),
        control_command a = Some c ->
        respond unit c (backend w) = (inr tt, b1) ->
        config (page out.2)
        = match (respond _ get_config b1).1 with
          | inr cfg => Some cfg
          | inl _ => config (page w)
          end
  | _ => config (page out.2) = config (page w)
  end.
Proof using Type.
  clear toLocaleString.
  destruct a; cbv zeta;
    try (intros c b1 Hc E; simpl in Hc; inversion Hc; subst c; clear Hc;
         unfold_page; cbn; rewrite E; cbn; repeat (answer; cbn); reflexivity);
    exec; reflexivity.
Qed.

(** X9.  When its command is rejected, a control handler changes
    nothing on the page but the error: the snapshot, the configuration
    and the loading flag are as before, and nothing is reloaded or
    logged to the console. *)
Theorem control_failure_frame a (c : Command unit) w e (b' : B) :
  control_command a = Some c ->
  respond unit c (backend w) = (inl e, b') ->
  run respond a w
  = (inr tt,
     mkWorld
       (mkPage (daemonState (page w)) (config (page w)) (loading (page w))
          (Some (display_message e (fallback_text a))) None)
       b' (calls w ++ [call_of c]) (console w)).
Proof using Type.
  clear toLocaleString. intros Hc E.
  destruct a; simpl in Hc; inversion Hc; subst c; clear Hc;
    unfold_page; cbn; rewrite E; reflexivity.
Qed.

(** X10.  The mount effect sends the state query and then the
    configuration query, exactly once each, never throws, and always
    ends with the loading screen gone, whatever the backend answers. *)
Theorem init_outcome w :
  let out := init respond w in
  out.1 = inr tt
  /\ loading (page out.2) = false
  /\ calls out.2
     = calls w ++ [mkCall "get_backup_daemon_state" [];
                   mkCall "get_config" []]
  /\ actionInProgress (page out.2) = actionInProgress (page w).
Proof using Type.
  clear toLocaleString. exec; rewrite <- ?app_assoc; repeat split.
Qed.

End PageMore.

(** ** What the dashboard shows *)

Section ViewMore.

Context {B : Type}.
Variable respond : forall T, Command T -> B -> (Thrown + T) * B.
Variable toLocaleString : string -> string.
Variable getTime : string -> option Z.
Variable formatBytes_nonzero : Z -> string.

Implicit Types (w : World B) (a : Action) (e : Thrown) (p : PageState)
  (d : Dashboard).

Local Open Scope list_scope.

Local Abbreviation summary_of :=
  (render_summary toLocaleString getTime formatBytes_nonzero).
Local Abbreviation row_of :=
  (processed_row toLocaleString formatBytes_nonzero).
Local Abbreviation by_time := (by_processedAt_desc getTime).

(** The dashboard is rendered exactly when the page is not loading. *)
Lemma render_loaded p :
  loading p = false -> exists d, render toLocaleString p = DashboardView d.
Proof using Type.
  intros Hl. unfold render. rewrite Hl. eauto.
Qed.

Lemma error_banner_of p d :
  render toLocaleString p = DashboardView d ->
  error_banner d
  = match error p with
    | Some (String c s) =>
        Some (String c s, mkButton "error-close" DismissError false "×")
    | _ => None
    end.
Proof using Type.
  unfold render. destruct (loading p); [discriminate|].
  intros [= <-]. cbn [error_banner].
  destruct (error p) as [[|c s]|]; reflexivity.
Qed.

(** X11.  After a rejected control command the banner shows the
    message, with its close button, unless the message is the empty
    string: a command rejected with [""] leaves no banner at all. *)
Theorem error_banner_after_failure a (c : Command unit) w e (b' : B) :
  control_command a = Some c ->
  respond unit c (backend w) = (inl e, b') ->
  loading (page w) = false ->
  exists d,
    render toLocaleString (page (run respond a w).2) = DashboardView d
    /\ error_banner d
       = match display_message e (fallback_text a) with
         | EmptyString => None
         | msg => Some (msg, mkButton "error-close" DismissError false "×")
         end.
Proof using Type.
  intros Hc E Hl.
  assert (Hp : page (run respond a w).2
               = mkPage (daemonState (page w)) (config (page w))
                   (loading (page w))
                   (Some (display_message e (fallback_text a))) None).
  { destruct a; simpl in Hc; inversion Hc; subst c; clear Hc;
      unfold run, handleEnable, handleDisable, handlePause, handleResume,
        handleRetry, try_catch_finally, try_catch, invoke, setError,
        setActionInProgress, update_page, mbind, M_bind, mret, M_ret;
      cbn; rewrite E; reflexivity. }
  destruct (render_loaded (page (run respond a w).2)) as (d & Hd).
  { rewrite Hp. exact Hl. }
  exists d. split; [exact Hd|].
  rewrite (error_banner_of _ _ Hd), Hp. cbn [error].
  destruct (display_message e (fallback_text a)); reflexivity.
Qed.

(** X12.  Closing the banner clears the error and nothing else: no
    command is sent, the rest of the page state is as before, and the
    dashboard rendered next has no banner. *)
Theorem dismiss_error_clears_banner w :
  run respond DismissError w
  = (inr tt,
     mkWorld
       (mkPage (daemonState (page w)) (config (page w)) (loading (page w))
          None (actionInProgress (page w)))
       (backend w) (calls w) (console w))
  /\ forall d,
       render toLocaleString (page (run respond DismissError w).2) = DashboardView d ->
       error_banner d = None.
Proof using Type.
  split; [reflexivity|].
  intros d Hd. now rewrite (error_banner_of _ _ Hd).
Qed.

(** X13.  The header offers either Enable alone or Pause, Resume and
    Disable, never both groups; the notice that the daemon is disabled
    appears exactly with the Enable button; and at most one header
    button is disabled at a time. *)
Theorem header_buttons p d :
  render toLocaleString p = DashboardView d ->
  (onClick <$> header_actions d = [Enable] /\ info_banner d = true
   \/ onClick <$> header_actions d = [Pause; Resume; Disable]
      /\ info_banner d = false)
  /\ (length (List.filter disabled (header_actions d)) <= 1)%nat.
Proof using Type.
  unfold render. destruct (loading p); [discriminate|].
  intros [= <-]. cbn [header_actions info_banner].
  set (isEnabled := match config p with
                    | Some c => BackupServerConfig.enabled
                                  (AppConfig.backup_server c)
                    | None => false
                    end).
  destruct isEnabled; unfold render_header; cbn [fmap list_fmap onClick negb];
    (split; [auto|]); cbn [List.filter disabled];
    repeat case_bool_decide; cbn [length]; try lia; congruence.
Qed.

(** X14.  While the retry of one manifest is running, the Retry button
    is disabled on the rows of that manifest and on no other row, and
    every header button stays enabled. *)
Theorem retry_in_progress_disables_only_its_row p d (manifestCid : string) :
  actionInProgress p = Some ("retry-" +:+ manifestCid)%string ->
  render toLocaleString p = DashboardView d ->
  Forall (fun b => disabled b = false) (header_actions d)
  /\ Forall (fun row =>
               disabled (f_action row) = bool_decide (f_key row = manifestCid))
       (failed_rows d).
Proof using Type.
  intros Ha. unfold render. destruct (loading p); [discriminate|].
  intros [= <-]. cbn [header_actions failed_rows]. rewrite Ha. split.
  - destruct (match config p with Some _ => _ | None => _ end);
      unfold render_header;
      repeat (apply List.Forall_cons; [cbn [disabled]|]);
      try apply List.Forall_nil;
      apply bool_decide_eq_false; unfold String.append; discriminate.
  - apply Forall_fmap, Forall_forall. intros m _.
    unfold compose. cbn [failed_row f_action f_key disabled].
    apply bool_decide_ext. split.
    + intros H. injection H as H. symmetry. exact H.
    + now intros ->.
Qed.

(** X15.  For counts with [0 <= filesDownloaded <= totalFiles] the
    width of the progress bar lies between 0 and 100 percent. *)
Theorem progress_width_bounds (manifest : InProgressManifest.t) :
  0 <= InProgressManifest.filesDownloaded manifest
    <= InProgressManifest.totalFiles manifest ->
  exists q, progress_width manifest = Some q
            /\ (inject_Z 0 <= q)%Q /\ (q <= inject_Z 100)%Q.
Proof using Type.
  intros [H0 H1]. unfold progress_width, js_div.
  destruct (0 <? InProgressManifest.totalFiles manifest) eqn:Hpos.
  - apply Z.ltb_lt in Hpos.
    destruct (InProgressManifest.totalFiles manifest =? 0) eqn:Hz;
      [apply Z.eqb_eq in Hz; lia|].
    eexists. split; [reflexivity|].
    destruct (InProgressManifest.totalFiles manifest) as [|t|t]; try lia.
    unfold Qle, Qmult, Qdiv, Qinv, inject_Z. cbn. split; nia.
  - eexists. split; [reflexivity|]. unfold Qle, inject_Z. cbn. lia.
Qed.

(** X16.  The width is not clamped: a manifest that reports more files
    downloaded than it has in total gets a bar wider than 100 percent. *)
Theorem progress_width_not_clamped (manifest : InProgressManifest.t) :
  0 < InProgressManifest.totalFiles manifest ->
  InProgressManifest.totalFiles manifest
    < InProgressManifest.filesDownloaded manifest ->
  exists q, progress_width manifest = Some q /\ (inject_Z 100 < q)%Q.
Proof using Type.
  intros H0 H1. unfold progress_width, js_div.
  destruct (0 <? InProgressManifest.totalFiles manifest) eqn:Hpos;
    [|apply Z.ltb_ge in Hpos; lia].
  destruct (InProgressManifest.totalFiles manifest =? 0) eqn:Hz;
    [apply Z.eqb_eq in Hz; lia|].
  eexists. split; [reflexivity|].
  destruct (InProgressManifest.totalFiles manifest) as [|t|t]; try lia.
  unfold Qlt, Qmult, Qdiv, Qinv, inject_Z. cbn. nia.
Qed.

(** *** The table of processed manifests *)

Lemma JsArray_insert_Permutation {T} (cmp : T -> T -> Z) (x : T) (l : list T) :
  JsArray.insert cmp x l ≡ₚ x :: l.
Proof using Type.
  induction l as [|y l IH]; [reflexivity|]. simpl.
  destruct (cmp x y <=? 0); [reflexivity|].
  rewrite IH. apply perm_swap.
Qed.

(** [sort] keeps every element, as often as it occurs. *)
Lemma JsArray_sort_Permutation {T} (cmp : T -> T -> Z) (l : list T) :
  JsArray.sort cmp l ≡ₚ l.
Proof using Type.
  induction l as [|x l IH]; [reflexivity|].
  change (JsArray.sort cmp (x :: l))
    with (JsArray.insert cmp x (JsArray.sort cmp l)).
  now rewrite JsArray_insert_Permutation, IH.
Qed.

(** With a comparator that is total and transitive on the elements at
    hand, [sort] puts every element before those it compares below. *)
Lemma JsArray_sort_StronglySorted {T} (cmp : T -> T -> Z) (P : T -> Prop)
    (l : list T) :
  (forall x y, P x -> P y -> cmp x y <= 0 \/ cmp y x <= 0) ->
  (forall x y z, P x -> P y -> P z ->
                 cmp x y <= 0 -> cmp y z <= 0 -> cmp x z <= 0) ->
  Forall P l ->
  StronglySorted (fun x y => cmp x y <= 0) (JsArray.sort cmp l).
Proof using Type.
  intros Htot Htrans.
  assert (Hins : forall x l,
            P x -> Forall P l ->
            StronglySorted (fun x y => cmp x y <= 0) l ->
            StronglySorted (fun x y => cmp x y <= 0) (JsArray.insert cmp x l)).
  { clear l. intros x l Hx. induction l as [|y l IH]; intros HP Hs; simpl.
    - repeat constructor.
    - apply Forall_cons in HP as [Hy HP].
      apply StronglySorted_inv in Hs as [Hs Hall].
      destruct (cmp x y <=? 0) eqn:E.
      + apply Z.leb_le in E. constructor; [constructor; assumption|].
        constructor; [exact E|].
        rewrite Forall_forall in Hall, HP |- *. intros z Hz.
        apply (Htrans x y z); auto.
      + apply Z.leb_gt in E. constructor; [apply IH; assumption|].
        rewrite JsArray_insert_Permutation. constructor; [|exact Hall].
        destruct (Htot x y Hx Hy); [lia | assumption]. }
  intros HP. induction l as [|x l IH]; [constructor|].
  apply Forall_cons in HP as [Hx HP].
  change (JsArray.sort cmp (x :: l))
    with (JsArray.insert cmp x (JsArray.sort cmp l)).
  apply Hins; auto.
  now rewrite JsArray_sort_Permutation.
Qed.

Lemma Object_values_length {T} (o : gmap string T) :
  length (Object_values o) = size o.
Proof using Type.
  unfold Object_values. now rewrite length_fmap, length_map_to_list.
Qed.

(** X17.  The section of processed manifests counts the entries of the
    state's map; it shows the "No manifests processed yet" notice when
    there is none (or no state at all) and otherwise a table with
    exactly one row per processed manifest. *)
Theorem processed_table_complete p (sm : Summary) :
  summary_of p = Some sm ->
  let processed :=
    match daemonState p with
    | Some s => DaemonState.processedManifests s
    | None => ∅
    end in
  processed_count (processed_section sm) = Z.of_nat (size processed)
  /\ match processed_body (processed_section sm) with
     | EmptyState _ => processed = ∅
     | ProcessedTable rows =>
         processed <> ∅
         /\ rows ≡ₚ row_of <$> Object_values processed
     end.
Proof using Type.
  unfold render_summary. destruct (loading p); [discriminate|].
  intros [= <-]. cbv zeta.
  cbn [processed_section processed_count processed_body render_processed].
  set (processed := match daemonState p with
                    | Some s => DaemonState.processedManifests s
                    | None => ∅
                    end).
  assert (Hvals : match daemonState p with
                  | Some s => Object_values (DaemonState.processedManifests s)
                  | None => []
                  end = Object_values processed)
    by (unfold processed; destruct (daemonState p); reflexivity).
  rewrite Hvals, Object_values_length. split; [reflexivity|].
  destruct (Z.of_nat (size processed) =? 0) eqn:E.
  - apply Z.eqb_eq in E. apply map_size_empty_iff. lia.
  - apply Z.eqb_neq in E. split.
    + intros ->. rewrite map_size_empty in E. lia.
    + now rewrite JsArray_sort_Permutation.
Qed.

(** X18.  When every [processedAt] parses as a date, the rows of the
    processed table are in descending order of processing time: each
    row's manifest was processed no earlier than those of the rows
    below it. *)
Theorem processed_table_most_recent_first p (s : DaemonState.t)
    (sm : Summary) (rows : list ProcessedRow) :
  daemonState p = Some s ->
  (forall k pm, DaemonState.processedManifests s !! k = Some pm ->
                is_Some (getTime (ProcessedManifest.processedAt pm))) ->
  summary_of p = Some sm ->
  processed_body (processed_section sm) = ProcessedTable rows ->
  exists manifests,
    rows = row_of <$> manifests
    /\ manifests ≡ₚ Object_values (DaemonState.processedManifests s)
    /\ StronglySorted (not_older getTime) manifests.
Proof using Type.
  intros Hs Hvalid.
  unfold render_summary. destruct (loading p); [discriminate|].
  intros [= <-].
  cbn [processed_section processed_body render_processed]. rewrite Hs.
  destruct (_ =? 0); [discriminate|]. intros [= <-].
  eexists. split; [reflexivity|]. split; [apply JsArray_sort_Permutation|].
  set (l := Object_values (DaemonState.processedManifests s)).
  set (P := fun pm : ProcessedManifest.t =>
              is_Some (getTime (ProcessedManifest.processedAt pm))).
  assert (HP : Forall P l).
  { apply Forall_forall. intros pm Hin.
    apply list_elem_of_fmap in Hin as ([k pm'] & -> & Hin).
    apply elem_of_map_to_list in Hin. eapply Hvalid; eauto. }
  assert (Hsorted : StronglySorted (fun x y => by_time x y <= 0)
                      (JsArray.sort by_time l)).
  { apply (JsArray_sort_StronglySorted _ P); [| |exact HP].
    - intros x y [tx Hx] [ty Hy]. unfold by_processedAt_desc.
      rewrite Hx, Hy. lia.
    - intros x y z [tx Hx] [ty Hy] [tz Hz].
      unfold by_processedAt_desc. rewrite Hx, Hy, Hz. lia. }
  assert (HPs : Forall P (JsArray.sort by_time l))
    by (now rewrite JsArray_sort_Permutation).
  revert Hsorted HPs.
  generalize (JsArray.sort by_time l) as sorted.
  induction sorted as [|x sorted IH]; intros Hsorted HPs; [constructor|].
  apply StronglySorted_inv in Hsorted as [Hsorted Hall].
  apply Forall_cons in HPs as [[tx Hx] HPs].
  constructor; [apply IH; assumption|].
  rewrite Forall_forall in Hall, HPs |- *. intros y Hy.
  destruct (HPs y Hy) as [ty Hty]. specialize (Hall y Hy).
  unfold by_processedAt_desc in Hall. rewrite Hx, Hty in Hall.
  exists tx, ty. repeat split; auto. lia.
Qed.

(** X19.  The folder cell of a processed row shows the first 8 code
    units of the folder identifier, the whole identifier when it is no
    longer than that, and never more than 8 code units. *)
Theorem processed_folder_cell (manifest : ProcessedManifest.t) :
  let folderId := ProcessedManifest.folderId manifest in
  pr_folder (row_of manifest) = Js.take 8 folderId
  /\ Js.length (pr_folder (row_of manifest)) <= 8
  /\ (if Js.length folderId <=? 8
      then pr_folder (row_of manifest) = folderId
      else Js.length (pr_folder (row_of manifest)) = 8).
Proof using Type.
  cbv zeta. cbn [processed_row pr_folder].
  rewrite Js_slice_prefix_any by lia. change (Z.to_nat 8) with 8%nat.
  split; [reflexivity|].
  destruct (Js.length (ProcessedManifest.folderId manifest) <=? 8) eqn:E.
  - apply Z.leb_le in E. unfold Js.length in *.
    rewrite Js_take_all by lia. split; [lia | reflexivity].
  - apply Z.leb_gt in E. unfold Js.length in *.
    rewrite Js_length_take by lia. split; [lia | reflexivity].
Qed.

(** X20.  Without a snapshot (before the first successful state query)
    the loaded dashboard shows zero in every card, "0 B" of data,
    "Never" for the last activity and the last poll, no row in the
    tables of manifests in progress and failed, and the notice of the
    empty processed section. *)
Theorem dashboard_without_snapshot p :
  loading p = false ->
  daemonState p = None ->
  (exists d, render toLocaleString p = DashboardView d
             /\ in_progress_rows d = [] /\ failed_rows d = [])
  /\ exists notice,
       summary_of p
       = Some (mkSummary
                 (mkStatsCards 0 0 "0 B" 0)
                 (mkLastTimes "Never" "Never")
                 (mkProcessedSection 0 (EmptyState notice))).
Proof using Type.
  intros Hl Hs. split.
  - unfold render. rewrite Hl, Hs. eexists. repeat split.
  - unfold render_summary, render_stats, render_last_times,
      render_processed. rewrite Hl, Hs. eexists. reflexivity.
Qed.

(** X21.  Every manifest of the snapshot's map of manifests in progress
    has its row in the loaded dashboard, and the table has as many rows
    as the map has entries. *)
Theorem in_progress_rows_complete p (s : DaemonState.t) d :
  daemonState p = Some s ->
  render toLocaleString p = DashboardView d ->
  length (in_progress_rows d) = size (DaemonState.inProgressManifests s)
  /\ forall k manifest,
       DaemonState.inProgressManifests s !! k = Some manifest ->
       in_progress_row toLocaleString manifest ∈ in_progress_rows d.
Proof using Type.
  intros Hs. unfold render. destruct (loading p); [discriminate|].
  intros [= <-]. cbn [in_progress_rows]. rewrite Hs. split.
  - now rewrite length_fmap, Object_values_length.
  - intros k m Hk. apply list_elem_of_fmap. exists m. split; [reflexivity|].
    unfold Object_values. apply list_elem_of_fmap. exists (k, m).
    split; [reflexivity|]. now apply elem_of_map_to_list.
Qed.

End ViewMore.

(** ** The further properties at the sample inputs *)

Local Open Scope list_scope.

Lemma loadConfig_failure_is_silent_witness :
  Sample.reject _ get_config (backend Sample.down)
  = (inl (ThrownError "Backup daemon not initialized"), tt)
  /\ page (loadConfig Sample.reject Sample.down).2 = Sample.loaded_page
  /\ console (loadConfig Sample.reject Sample.down).2
     = [("Failed to load config:"%string,
         ThrownError "Backup daemon not initialized")].
Proof.
  split; [reflexivity|].
  rewrite (loadConfig_failure_is_silent Sample.reject Sample.down
             (ThrownError "Backup daemon not initialized") tt eq_refl).
  split; reflexivity.
Defined.

Lemma control_success_calls_witness :
  control_command Pause = Some pause_backup_daemon
  /\ Sample.respond unit pause_backup_daemon (backend Sample.world)
     = (inr tt, (Sample.state, Sample.app_config))
  /\ calls (run Sample.respond Pause Sample.world).2
     = [mkCall "pause_backup_daemon" [];
        mkCall "get_backup_daemon_state" []].
Proof.
  split; [reflexivity|]. split; [reflexivity|].
  exact (control_success_calls Sample.respond Pause pause_backup_daemon
           Sample.world _ eq_refl eq_refl).
Defined.

(** Pause is accepted but the state query then fails with a value that
    is neither a string nor an [Error]: the fallback of the state query
    is shown. *)
Lemma control_success_outcome_witness :
  control_command Pause = Some pause_backup_daemon
  /\ Sample2.state_unavailable unit pause_backup_daemon (backend Sample.down)
     = (inr tt, tt)
  /\ error (page (run Sample2.state_unavailable Pause Sample.down).2)
     = Some "Failed to load daemon state"%string
  /\ daemonState (page (run Sample2.state_unavailable Pause Sample.down).2)
     = Some Sample.state.
Proof.
  split; [reflexivity|]. split; [reflexivity|].
  destruct (control_success_outcome Sample2.state_unavailable Pause
              pause_backup_daemon Sample.down tt eq_refl eq_refl)
    as (_ & _ & Hd & He).
  split; [exact He | exact Hd].
Defined.

Lemma configuration_reload_witness :
  config (page (run Sample.respond Disable Sample.world).2)
  = Some (Sample.set_enabled false Sample.app_config).
Proof.
  exact (configuration_reload Sample.respond Disable Sample.world
           disable_backup_daemon _ eq_refl eq_refl).
Defined.

Lemma control_failure_frame_witness :
  control_command Enable = Some enable_backup_daemon
  /\ Sample.reject unit enable_backup_daemon (backend Sample.down)
     = (inl (ThrownError "Backup daemon not initialized"), tt)
  /\ page (run Sample.reject Enable Sample.down).2
     = mkPage (Some Sample.state) (Some Sample.app_config) false
         (Some "Backup daemon not initialized"%string) None.
Proof.
  split; [reflexivity|]. split; [reflexivity|].
  rewrite (control_failure_frame Sample.reject Enable enable_backup_daemon
             Sample.down _ tt eq_refl eq_refl).
  reflexivity.
Defined.

(** A command rejected with the empty string: the error is set, yet no
    banner is rendered. *)
Lemma error_banner_after_failure_witness :
  control_command Pause = Some pause_backup_daemon
  /\ Sample2.reject_silently unit pause_backup_daemon (backend Sample.down)
     = (inl (ThrownString EmptyString), tt)
  /\ loading (page Sample.down) = false
  /\ exists d,
       render Sample.toLocaleString
         (page (run Sample2.reject_silently Pause Sample.down).2)
       = DashboardView d
       /\ error_banner d = None.
Proof.
  split; [reflexivity|]. split; [reflexivity|]. split; [reflexivity|].
  exact (error_banner_after_failure Sample2.reject_silently
           Sample.toLocaleString Pause pause_backup_daemon Sample.down
           (ThrownString EmptyString) tt eq_refl eq_refl eq_refl).
Defined.

Lemma dismiss_error_clears_banner_witness :
  error (page (run Sample.reject DismissError
                 (run Sample.reject Enable Sample.down).2).2) = None.
Proof.
  rewrite (proj1 (dismiss_error_clears_banner Sample.reject
                    Sample.toLocaleString
                    (run Sample.reject Enable Sample.down).2)).
  reflexivity.
Defined.

Lemma header_buttons_witness :
  exists d,
    render Sample.toLocaleString Sample.loaded_page = DashboardView d
    /\ onClick <$> header_actions d = [Pause; Resume; Disable]
    /\ info_banner d = false.
Proof.
  eexists. split; [reflexivity|].
  destruct (header_buttons Sample.toLocaleString Sample.loaded_page _ eq_refl)
    as [[[H _]|H] _]; [discriminate H | exact H].
Defined.

Lemma retry_in_progress_disables_only_its_row_witness :
  actionInProgress Sample2.retrying
  = Some ("retry-" +:+ "zDvZRwzmAaBbCcDdEeFfGgHhIiJjKk")%string
  /\ exists d,
       render Sample.toLocaleString Sample2.retrying = DashboardView d
       /\ Forall (fun b => disabled b = false) (header_actions d)
       /\ Forall (fun row =>
                    disabled (f_action row)
                    = bool_decide
                        (f_key row = "zDvZRwzmAaBbCcDdEeFfGgHhIiJjKk"%string))
            (failed_rows d).
Proof.
  split; [reflexivity|]. eexists. split; [reflexivity|].
  exact (retry_in_progress_disables_only_its_row Sample.toLocaleString
           Sample2.retrying _ "zDvZRwzmAaBbCcDdEeFfGgHhIiJjKk"
           eq_refl eq_refl).
Defined.

Lemma progress_width_bounds_witness :
  0 <= InProgressManifest.filesDownloaded Sample2.half_done
    <= InProgressManifest.totalFiles Sample2.half_done
  /\ exists q, progress_width Sample2.half_done = Some q
               /\ (inject_Z 0 <= q)%Q /\ (q <= inject_Z 100)%Q.
Proof.
  assert (H : 0 <= InProgressManifest.filesDownloaded Sample2.half_done
                <= InProgressManifest.totalFiles Sample2.half_done)
    by (simpl; lia).
  split; [exact H|].
  exact (progress_width_bounds Sample2.half_done H).
Defined.

Lemma progress_width_not_clamped_witness :
  0 < InProgressManifest.totalFiles Sample2.overshoot
  /\ InProgressManifest.totalFiles Sample2.overshoot
       < InProgressManifest.filesDownloaded Sample2.overshoot
  /\ exists q, progress_width Sample2.overshoot = Some q
               /\ (inject_Z 100 < q)%Q.
Proof.
  assert (H0 : 0 < InProgressManifest.totalFiles Sample2.overshoot)
    by (simpl; lia).
  assert (H1 : InProgressManifest.totalFiles Sample2.overshoot
               < InProgressManifest.filesDownloaded Sample2.overshoot)
    by (simpl; lia).
  split; [exact H0|]. split; [exact H1|].
  exact (progress_width_not_clamped Sample2.overshoot H0 H1).
Defined.

Lemma processed_table_complete_witness :
  exists sm,
    render_summary Sample.toLocaleString Sample2.getTime
      Sample2.formatBytes_nonzero Sample2.page = Some sm
    /\ processed_count (processed_section sm) = 2.
Proof.
  eexists. split; [reflexivity|].
  rewrite (proj1 (processed_table_complete Sample.toLocaleString
                    Sample2.getTime Sample2.formatBytes_nonzero
                    Sample2.page _ eq_refl)).
  vm_compute. reflexivity.
Defined.

Lemma sample_timestamps_parse (k : string) (pm : ProcessedManifest.t) :
  DaemonState.processedManifests Sample2.state !! k = Some pm ->
  is_Some (Sample2.getTime (ProcessedManifest.processedAt pm)).
Proof.
  unfold Sample2.state. cbn [DaemonState.processedManifests]. intros H.
  apply lookup_insert_Some in H as [[_ <-]|[_ H]];
    [|apply lookup_singleton_Some in H as [_ <-]];
    vm_compute; eauto.
Qed.

(** The manifest of 5 January comes before the one of 4 January. *)
Lemma processed_table_most_recent_first_witness :
  daemonState Sample2.page = Some Sample2.state
  /\ exists rows,
       processed_body
         (render_processed Sample.toLocaleString Sample2.getTime
            Sample2.formatBytes_nonzero Sample2.page)
       = ProcessedTable rows
       /\ exists manifests,
            rows = processed_row Sample.toLocaleString
                     Sample2.formatBytes_nonzero <$> manifests
            /\ manifests
                 ≡ₚ Object_values (DaemonState.processedManifests Sample2.state)
            /\ StronglySorted (not_older Sample2.getTime) manifests.
Proof.
  split; [reflexivity|]. eexists. split; [reflexivity|].
  exact (processed_table_most_recent_first Sample.toLocaleString
           Sample2.getTime Sample2.formatBytes_nonzero Sample2.page
           Sample2.state _ _ eq_refl sample_timestamps_parse eq_refl
           eq_refl).
Defined.

Lemma dashboard_without_snapshot_witness :
  loading (mkPage None None false None None) = false
  /\ daemonState (mkPage None None false None None) = None
  /\ exists notice,
       render_summary Sample.toLocaleString Sample2.getTime
         Sample2.formatBytes_nonzero (mkPage None None false None None)
       = Some (mkSummary (mkStatsCards 0 0 "0 B" 0)
                 (mkLastTimes "Never" "Never")
                 (mkProcessedSection 0 (EmptyState notice))).
Proof.
  split; [reflexivity|]. split; [reflexivity|].
  exact (proj2 (dashboard_without_snapshot Sample.toLocaleString
                  Sample2.getTime Sample2.formatBytes_nonzero
                  (mkPage None None false None None) eq_refl eq_refl)).
Defined.

Lemma in_progress_rows_complete_witness :
  daemonState Sample.loaded_page = Some Sample.state
  /\ exists d,
       render Sample.toLocaleString Sample.loaded_page = DashboardView d
       /\ length (in_progress_rows d) = 2%nat
       /\ in_progress_row Sample.toLocaleString Sample.in_progress
            ∈ in_progress_rows d.
Proof.
  split; [reflexivity|]. eexists. split; [reflexivity|].
  destruct (in_progress_rows_complete Sample.toLocaleString
              Sample.loaded_page Sample.state _ eq_refl eq_refl) as [Hn Hin].
  split.
  - rewrite Hn. vm_compute. reflexivity.
  - apply (Hin "zDvZRwzmInProgress0001"%string). vm_compute. reflexivity.
Defined.
